(** * A leveled logger: shallow embedding and verification

    The development follows the two source files of the logger package:
    - [log.go], the structured (JSON) rendering, embedded in [Module Json];
    - the plain-text rendering (colourised lines), embedded in [Module Plain].

    Both files share the level enumeration, the colour table, the option
    constructors and the emission pipeline [logMsg]; they differ in [fmt]
    and in what [logMsg] hands to the sink. *)

From Stdlib Require Import ZArith List String Ascii Bool Lia DecimalString.
Import ListNotations.
Local Open Scope string_scope.
Local Open Scope Z_scope.

(** ** Levels and colours (identical in both source files) *)

(** [type Level int]: the constants are [iota] values 0..4. *)
Definition Level := Z.

Definition DEBUG : Level := 0.
Definition INFO  : Level := 1.
Definition WARN  : Level := 2.
Definition ERROR : Level := 3.
Definition FATAL : Level := 4.

(** [type color string]; ESC is byte 27 (octal 033). *)
Definition color := string.

Definition ESC : string := String (ascii_of_nat 27) "".

Definition colorReset  : color := ESC ++ "[0m".
Definition colorRed    : color := ESC ++ "[31m".
Definition colorGreen  : color := ESC ++ "[32m".
Definition colorYellow : color := ESC ++ "[33m".
Definition colorBlue   : color := ESC ++ "[34m".
Definition colorPurple : color := ESC ++ "[35m".
Definition colorCyan   : color := ESC ++ "[36m".
Definition colorWhite  : color := ESC ++ "[37m".

(** [func (lvl Level) string() string]: a switch with a default branch. *)
Definition Level_string (lvl : Level) : string :=
  if lvl =? INFO then "INFO"
  else if lvl =? WARN then "WARN"
  else if lvl =? ERROR then "ERROR"
  else if lvl =? FATAL then "FATAL"
  else "DEBUG".

(** [strings.ToLower].  Bytes below 128 are lowered as ASCII.  Of the runes
    above ASCII exactly two have an ASCII lower-case image in Go's tables,
    U+0130 (bytes 196 176, lowered to i) and U+212A (bytes 226 132 170,
    lowered to k); every other rune stays outside ASCII, which is all the
    comparisons of [levelFromString] need, so its bytes are kept. *)
Definition lowerAscii (c : ascii) : ascii :=
  let n := nat_of_ascii c in
  if (Nat.leb 65 n && Nat.leb n 90)%bool then ascii_of_nat (n + 32) else c.

Definition isByte (n : nat) (c : ascii) : bool := Nat.eqb (nat_of_ascii c) n.

Fixpoint ToLower (s : string) : string :=
  match s with
  | EmptyString => EmptyString
  | String c rest =>
      match rest with
      | String c1 rest1 =>
          if (isByte 196 c && isByte 176 c1)%bool
          then String "i" (ToLower rest1)
          else
            match rest1 with
            | String c2 rest2 =>
                if (isByte 226 c && isByte 132 c1 && isByte 170 c2)%bool
                then String "k" (ToLower rest2)
                else String (lowerAscii c) (ToLower rest)
            | EmptyString => String (lowerAscii c) (ToLower rest)
            end
      | EmptyString => String (lowerAscii c) EmptyString
      end
  end.

(** [func levelFromString(lvl string) Level] *)
Definition levelFromString (lvl : string) : Level :=
  let s := ToLower lvl in
  if (s =? "info")%string then INFO
  else if (s =? "warn")%string then WARN
  else if (s =? "error")%string then ERROR
  else if (s =? "fatal")%string then FATAL
  else DEBUG.

(** [func colorFromLevel(level Level) color] *)
Definition colorFromLevel (level : Level) : color :=
  if level =? DEBUG then colorCyan
  else if level =? INFO then colorGreen
  else if level =? WARN then colorYellow
  else if level =? ERROR then colorRed
  else if level =? FATAL then colorPurple
  else colorReset.

(** Two strings that agree letter by letter once ASCII case is ignored:
    the reading of "case-insensitive match" used to state the behaviour of
    [levelFromString] independently of [ToLower]. *)
Fixpoint equalFoldAscii (s t : string) : bool :=
  match s, t with
  | EmptyString, EmptyString => true
  | String a s', String b t' =>
      (Ascii.eqb (lowerAscii a) (lowerAscii b) && equalFoldAscii s' t')%bool
  | _, _ => false
  end.

(** Strings made of bytes below 128. *)
Fixpoint isAscii (s : string) : bool :=
  match s with
  | EmptyString => true
  | String c rest => (Nat.ltb (nat_of_ascii c) 128 && isAscii rest)%bool
  end.

(** ASCII strings that lower-casing leaves alone. *)
Fixpoint isLower (s : string) : bool :=
  match s with
  | EmptyString => true
  | String c rest =>
      (Nat.ltb (nat_of_ascii c) 128 && Ascii.eqb (lowerAscii c) c
       && isLower rest)%bool
  end.

(** ** The environment of one emission call *)

(** The dynamic values a caller may pass as variadic arguments ([...any]).
    [VChan] stands for a channel, which [encoding/json] refuses. *)
Inductive any : Type :=
| VString (s : string)
| VInt (n : Z)
| VBool (b : bool)
| VNil
| VChan.

(** What the sink is: [os.Stdout], [os.Stdin], or any other [io.Writer]. *)
Inductive WriterId : Type :=
| OsStdout
| OsStdin
| UserWriter (id : nat).

(** What one emission call can do to the world, in program order. *)
Inductive event : Type :=
| EvLock                                   (* l.mu.Lock()   *)
| EvUnlock                                 (* l.mu.Unlock() *)
| EvNow                                    (* time.Now()    *)
| EvStack                                  (* debug.Stack() *)
| EvWrite (p : string) (err : option string)  (* w.Write(p) and its error *)
| EvExit (code : Z).                       (* os.Exit(code) *)

(** An [io.Writer]: [accept before p] is the error returned by [Write(p)]
    after the events [before] ([None] is a nil error, [Some e] an error
    whose text is [e]).  The byte count returned by [Write] is ignored by
    the logger and is not modelled. *)
Record Writer : Type := mkWriter {
  ident : WriterId;
  accept : list event -> string -> option string
}.

(** What [time.Now().Format("2006-01-02 15:04:05")] and [debug.Stack()]
    return during the call. *)
Record Env : Type := mkEnv {
  now : string;
  stack : string
}.

(** ** A monad for the effects of [logMsg]

    A computation sees the events so far, adds its own events, and either
    returns a value or aborts: [os.Exit] ends the process, a panic unwinds
    the stack. *)
Inductive abort : Type :=
| Exit (code : Z)
| Panic (msg : string).

Inductive result (A : Type) : Type :=
| Done (a : A)
| Abort (x : abort).
Arguments Done {A} a.
Arguments Abort {A} x.

Definition M (A : Type) : Type := list event -> list event * result A.

Definition ret {A} (a : A) : M A := fun _ => ([], Done a).

Definition bind {A B} (m : M A) (k : A -> M B) : M B :=
  fun h =>
    let (e1, r) := m h in
    match r with
    | Done a => let (e2, r2) := k a (h ++ e1)%list in ((e1 ++ e2)%list, r2)
    | Abort x => (e1, Abort x)
    end.

Notation "x <- m ;; k" := (bind m (fun x => k))
  (at level 61, m at next level, right associativity).
Notation "m ;; k" := (bind m (fun _ => k))
  (at level 61, right associativity).

Definition emit (e : event) : M unit := fun _ => ([e], Done tt).

(** [defer d] around [body]: [d] runs when [body] returns and when it
    panics, not when it calls [os.Exit]. *)
Definition defer {A} (d : M unit) (body : M A) : M A :=
  fun h =>
    let (e1, r) := body h in
    match r with
    | Abort (Exit _) => (e1, r)
    | _ => let (e2, _) := d (h ++ e1)%list in ((e1 ++ e2)%list, r)
    end.

(** The byte ['\n']. *)
Definition newline : string := String (ascii_of_nat 10) "".

Definition nilDeref : string :=
  "runtime error: invalid memory address or nil pointer dereference".

(** [w.Write(p)] on the interface value [w]; a nil interface panics. *)
Definition Write (wr : option Writer) (p : string) : M (option string) :=
  fun h =>
    match wr with
    | None => ([], Abort (Panic nilDeref))
    | Some x => let err := accept x h p in ([EvWrite p err], Done err)
    end.

(** [fmt.Fprintf(w, ...)]: the text is formatted, then written in one
    [Write] call. *)
Definition Fprintf (wr : option Writer) (text : string) : M (option string) :=
  Write wr text.

Definition os_Exit {A} (code : Z) : M A :=
  fun _ => ([EvExit code], Abort (Exit code)).

Definition time_Now (env : Env) : M string :=
  fun _ => ([EvNow], Done (now env)).

Definition debug_Stack (env : Env) : M string :=
  fun _ => ([EvStack], Done (stack env)).

(** The payloads handed to the sink, in order. *)
Fixpoint writes (evs : list event) : list string :=
  match evs with
  | [] => []
  | EvWrite p _ :: rest => p :: writes rest
  | _ :: rest => writes rest
  end.

(** The text of [fmt.Fprintf(l.w, "failed to write to out: %v", err)]. *)
Definition writeFailed (e : string) : string := "failed to write to out: " ++ e.

(** The shape of every run of [logMsg] that passes the filter on a logger
    with a sink.  [shapeBody]: the events [pre] of locking and formatting,
    an optional diagnostic write, the write of the payload [p] with its
    error [werr], and a diagnostic write when that failed. *)
Definition shapeBody (pre : list event)
           (diag : option (string * option string)) (p : string)
           (werr ferr : option string) : list event :=
  (pre
   ++ match diag with Some (d, e) => [EvWrite d e] | None => [] end
   ++ EvWrite p werr
   :: match werr with Some e => [EvWrite (writeFailed e) ferr] | None => [] end
  )%list.

(** [logShape]: the body, then either [os.Exit(1)] or the deferred
    unlock. *)
Definition logShape (level : Level) (pre : list event)
           (diag : option (string * option string)) (p : string)
           (werr ferr : option string) : list event * result unit :=
  ((shapeBody pre diag p werr ferr
    ++ (if level =? FATAL then [EvExit 1] else [EvUnlock]))%list,
   if level =? FATAL then Abort (Exit 1) else Done tt).

(** The exit codes passed to [os.Exit] in a trace. *)
Fixpoint exits (evs : list event) : list Z :=
  match evs with
  | [] => []
  | EvExit c :: rest => c :: exits rest
  | _ :: rest => exits rest
  end.

(** The ten public methods. *)
Inductive method : Type :=
| MDebug | MDebugf | MInfo | MInfof | MWarn | MWarnf
| MError | MErrorf | MFatal | MFatalf.

Definition methodLevel (m : method) : Level :=
  match m with
  | MDebug | MDebugf => DEBUG
  | MInfo | MInfof => INFO
  | MWarn | MWarnf => WARN
  | MError | MErrorf => ERROR
  | MFatal | MFatalf => FATAL
  end.

(** [true] for the f-suffixed methods. *)
Definition formatted (m : method) : bool :=
  match m with
  | MDebugf | MInfof | MWarnf | MErrorf | MFatalf => true
  | _ => false
  end.

(** The template and the arguments a public method hands to [logMsg]. *)
Definition callFormat (m : method) (format : string) : string :=
  if formatted m then format else "%s".

Definition callArgs (m : method) (format : string) (args : list any)
  : list any :=
  if formatted m then args else [VString format].

(** ** JSON values, as [encoding/json] builds them *)
#[local] Set Warnings "-register-all".
Inductive json : Type :=
| JNull
| JBool (b : bool)
| JNumber (n : Z)
| JString (s : string)
| JArray (items : list json)
| JObject (members : list (string * json)).

(** Encoding of one dynamic value; [inl] is the error of [json.Marshal]. *)
Definition jsonOfAny (v : any) : string + json :=
  match v with
  | VString s => inr (JString s)
  | VInt n => inr (JNumber n)
  | VBool b => inr (JBool b)
  | VNil => inr JNull
  | VChan => inl "json: unsupported type: chan int"
  end.

(** Elements are encoded in order; the first error ends the encoding. *)
Fixpoint jsonOfList (vs : list any) : string + list json :=
  match vs with
  | [] => inr []
  | v :: rest =>
      match jsonOfAny v with
      | inl e => inl e
      | inr j =>
          match jsonOfList rest with
          | inl e => inl e
          | inr js => inr (j :: js)
          end
      end
  end.

Definition keys (members : list (string * json)) : list string :=
  map fst members.

Fixpoint lookup (k : string) (members : list (string * json)) : option json :=
  match members with
  | [] => None
  | (k', v) :: rest => if (k =? k')%string then Some v else lookup k rest
  end.

(** ** The structured rendering ([log.go]) *)
Module Json.

(** [type entry struct]; the tags are listed with [marshalEntry].  The
    field [Level] is written [Level'], [Level] being the type. *)
Record entry : Type := mkEntry {
  Name : string;
  Level' : string;
  Caller : string;
  Message : string;
  Fields : list any;
  Stacktrace : string;
  Timestamp : string
}.

(** [type Logger struct]; the mutex shows as [EvLock]/[EvUnlock]. *)
Record Logger : Type := mkLogger {
  w : option Writer;
  minLevel : Level;
  name : string;
  includeCaller : bool;
  stacktrace : bool
}.

(** The options: each constructor stands for the closure the function of
    the same name returns, [applyOption] for calling that closure. *)
Inductive LoggerOption : Type :=
| WithWriter (wr : Writer)
| WithName (n : string)
| WithLevel (level : string)
| WithCaller (flag : bool)
| WithStacktrace (flag : bool).

Definition applyOption (opt : LoggerOption) (l : Logger) : Logger :=
  match opt with
  | WithWriter wr =>
      mkLogger (Some wr) (minLevel l) (name l) (includeCaller l) (stacktrace l)
  | WithName n =>
      mkLogger (w l) (minLevel l) n (includeCaller l) (stacktrace l)
  | WithLevel level =>
      mkLogger (w l) (levelFromString level) (name l) (includeCaller l)
               (stacktrace l)
  | WithCaller flag =>
      mkLogger (w l) (minLevel l) (name l) flag (stacktrace l)
  | WithStacktrace flag =>
      mkLogger (w l) (minLevel l) (name l) (includeCaller l) flag
  end.

(** [&Logger{mu: sync.Mutex{}}]: every other field has its zero value. *)
Definition zeroLogger : Logger := mkLogger None 0 "" false false.

(** [func New(opts ...LoggerOption) *Logger] *)
Definition New (opts : list LoggerOption) : Logger :=
  fold_left (fun l opt => applyOption opt l) opts zeroLogger.

Definition setFields (en : entry) (fs : list any) : entry :=
  mkEntry (Name en) (Level' en) (Caller en) (Message en) fs
          (Stacktrace en) (Timestamp en).

Definition setStacktrace (en : entry) (st : string) : entry :=
  mkEntry (Name en) (Level' en) (Caller en) (Message en) (Fields en)
          st (Timestamp en).

(** The text [fmt.Sprintf(" %sstracktrace %s%s", colorFromLevel(level),
    colorReset, string(stacktrace))] builds: all three operands are
    strings. *)
Definition stackText (level : Level) (st : string) : string :=
  " " ++ colorFromLevel level ++ "stracktrace " ++ colorReset ++ st.

(** The body of [for _, arg := range args]. *)
Fixpoint fmtArgs (l : Logger) (env : Env) (level : Level)
         (args : list any) (en : entry) : M entry :=
  match args with
  | [] => ret en
  | arg :: rest =>
      let en1 := setFields en (Fields en ++ [arg])%list in
      en2 <- (if ((level =? ERROR) || (level =? FATAL))%bool then
                if stacktrace l then
                  st <- debug_Stack env ;;
                  ret (setStacktrace en1 (stackText level st))
                else ret en1
              else ret en1) ;;
      fmtArgs l env level rest en2
  end.

(** [func (l *Logger) fmt(level Level, format string, args ...any) entry] *)
Definition fmt (l : Logger) (env : Env) (level : Level) (format : string)
           (args : list any) : M entry :=
  ts <- time_Now env ;;
  fmtArgs l env level args
          (mkEntry (name l) (Level_string level) "" format [] "" ts).

(** A string member tagged [omitempty] is left out when it is empty. *)
Definition omitempty (key value : string) : list (string * json) :=
  if (value =? "")%string then [] else [(key, JString value)].

(** The object [json.Marshal(&logEntry)] encodes, members in field order:
    [name,omitempty], [level], [caller,omitempty], [msg,omitempty],
    [fields,omitempty], [stacktrace,omitempty], [timestamp]. *)
Definition marshalEntry (en : entry) : string + json :=
  match jsonOfList (Fields en) with
  | inl e => inl e
  | inr fs =>
      inr (JObject
             (omitempty "name" (Name en)
              ++ [("level", JString (Level' en))]
              ++ omitempty "caller" (Caller en)
              ++ omitempty "msg" (Message en)
              ++ (match fs with [] => [] | _ => [("fields", JArray fs)] end)
              ++ omitempty "stacktrace" (Stacktrace en)
              ++ [("timestamp", JString (Timestamp en))])%list)
  end.

(** Closed forms used in the statements: when [fmt] captures a stack,
    and the entry it returns. *)
Definition stackOn (l : Logger) (level : Level) : bool :=
  (((level =? ERROR) || (level =? FATAL)) && stacktrace l)%bool.

Definition fmtEntry (l : Logger) (env : Env) (level : Level)
           (format : string) (args : list any) : entry :=
  mkEntry (name l) (Level_string level) "" format args
          (match args with
           | [] => ""
           | _ => if stackOn l level then stackText level (stack env) else ""
           end)
          (now env).

(** The events of a run up to the first write: the lock, the clock, and
    one stack capture per argument when the stack is on. *)
Definition preEvents (l : Logger) (level : Level) (args : list any)
  : list event :=
  EvLock :: EvNow
  :: (if stackOn l level then repeat EvStack (List.length args) else []).

(** The member names of the tags of [entry], in field order. *)
Definition memberNames : list string :=
  ["name"; "level"; "caller"; "msg"; "fields"; "stacktrace"; "timestamp"].

(** The members of the object written for an entry of [fmt] whose
    arguments encode to [fs]. *)
Definition recordMembers (l : Logger) (env : Env) (level : Level)
           (format : string) (args : list any) (fs : list json)
  : list (string * json) :=
  (omitempty "name" (name l)
   ++ [("level", JString (Level_string level))]
   ++ omitempty "msg" format
   ++ match fs with [] => [] | _ => [("fields", JArray fs)] end
   ++ omitempty "stacktrace"
        (match args with
         | [] => ""
         | _ => if stackOn l level then stackText level (stack env) else ""
         end)
   ++ [("timestamp", JString (now env))])%list.

(** [firstOf sel opts] is the first value [sel] picks in [opts];
    [lastOf sel opts] the last one, the last occurrence of an option kind in
    an option list. *)
Fixpoint firstOf {A : Type} (sel : LoggerOption -> option A)
         (opts : list LoggerOption) : option A :=
  match opts with
  | [] => None
  | o :: rest =>
      match sel o with
      | Some a => Some a
      | None => firstOf sel rest
      end
  end.

Definition lastOf {A : Type} (sel : LoggerOption -> option A)
           (opts : list LoggerOption) : option A :=
  firstOf sel (rev opts).

Definition selWriter (o : LoggerOption) : option Writer :=
  match o with WithWriter wr => Some wr | _ => None end.
Definition selName (o : LoggerOption) : option string :=
  match o with WithName n => Some n | _ => None end.
Definition selLevel (o : LoggerOption) : option string :=
  match o with WithLevel s => Some s | _ => None end.
Definition selCaller (o : LoggerOption) : option bool :=
  match o with WithCaller b => Some b | _ => None end.
Definition selStacktrace (o : LoggerOption) : option bool :=
  match o with WithStacktrace b => Some b | _ => None end.

(** The text of [fmt.Fprintf(l.w, "failed to marshal message %v original
    message %s", err, format)]. *)
Definition marshalFailed (e format : string) : string :=
  "failed to marshal message " ++ e ++ " original message " ++ format.

Section WithEncoder.

(** The bytes [encoding/json] prints for a value. *)
Variable jsonText : json -> string.

(** [json.Marshal]: the bytes and a nil error, or nil bytes and the
    error. *)
Definition json_Marshal (en : entry) : string * option string :=
  match marshalEntry en with
  | inl e => ("", Some e)
  | inr j => (jsonText j, None)
  end.

(** [func (l *Logger) logMsg(level Level, format string, args ...any)] *)
Definition logMsg (l : Logger) (env : Env) (level : Level)
           (format : string) (args : list any) : M unit :=
  if minLevel l >? level then ret tt
  else
    emit EvLock ;;
    defer (emit EvUnlock)
      (logEntry <- fmt l env level format args ;;
       let (entrybytes, err) := json_Marshal logEntry in
       match err with
       | Some e =>
           Fprintf (w l) (marshalFailed e format) ;; ret tt
       | None => ret tt
       end ;;
       let entrybytes := entrybytes ++ newline in
       werr <- Write (w l) entrybytes ;;
       match werr with
       | Some e => Fprintf (w l) (writeFailed e) ;; ret tt
       | None => ret tt
       end ;;
       if level =? FATAL then os_Exit 1 else ret tt).

(** The ten public methods: a plain method passes the template
    ["%s"] and its message as the only argument. *)
Definition Debug (l : Logger) (env : Env) (format : string) : M unit :=
  logMsg l env DEBUG "%s" [VString format].
Definition Debugf (l : Logger) (env : Env) (format : string)
           (args : list any) : M unit :=
  logMsg l env DEBUG format args.
Definition Info (l : Logger) (env : Env) (format : string) : M unit :=
  logMsg l env INFO "%s" [VString format].
Definition Infof (l : Logger) (env : Env) (format : string)
           (args : list any) : M unit :=
  logMsg l env INFO format args.
Definition Warn (l : Logger) (env : Env) (format : string) : M unit :=
  logMsg l env WARN "%s" [VString format].
Definition Warnf (l : Logger) (env : Env) (format : string)
           (args : list any) : M unit :=
  logMsg l env WARN format args.
Definition Error (l : Logger) (env : Env) (format : string) : M unit :=
  logMsg l env ERROR "%s" [VString format].
Definition Errorf (l : Logger) (env : Env) (format : string)
           (args : list any) : M unit :=
  logMsg l env ERROR format args.
Definition Fatal (l : Logger) (env : Env) (format : string) : M unit :=
  logMsg l env FATAL "%s" [VString format].
Definition Fatalf (l : Logger) (env : Env) (format : string)
           (args : list any) : M unit :=
  logMsg l env FATAL format args.

(** A call of the public method [m]; the plain methods take no
    variadic arguments, so [args] is unused for them. *)
Definition call (m : method) (l : Logger) (env : Env) (format : string)
           (args : list any) : M unit :=
  match m with
  | MDebug => Debug l env format
  | MDebugf => Debugf l env format args
  | MInfo => Info l env format
  | MInfof => Infof l env format args
  | MWarn => Warn l env format
  | MWarnf => Warnf l env format args
  | MError => Error l env format
  | MErrorf => Errorf l env format args
  | MFatal => Fatal l env format
  | MFatalf => Fatalf l env format args
  end.

End WithEncoder.

End Json.

(** ** The plain-text rendering *)
Module Plain.

(** [type Logger struct]: this file has no feature flags. *)
Record Logger : Type := mkLogger {
  w : option Writer;
  minLevel : Level;
  name : string
}.

Inductive LoggerOption : Type :=
| WithWriter (wr : Writer)
| WithName (n : string)
| WithLevel (level : string).

Definition applyOption (opt : LoggerOption) (l : Logger) : Logger :=
  match opt with
  | WithWriter wr => mkLogger (Some wr) (minLevel l) (name l)
  | WithName n => mkLogger (w l) (minLevel l) n
  | WithLevel level => mkLogger (w l) (levelFromString level) (name l)
  end.

Definition zeroLogger : Logger := mkLogger None 0 "".

(** [func New(opts ...LoggerOption) *Logger] *)
Definition New (opts : list LoggerOption) : Logger :=
  fold_left (fun l opt => applyOption opt l) opts zeroLogger.

(** [l.w == os.Stdout || l.w == os.Stdin] *)
Definition isStdStream (wr : option Writer) : bool :=
  match wr with
  | Some x =>
      match ident x with
      | OsStdout | OsStdin => true
      | UserWriter _ => false
      end
  | None => false
  end.

(** Closed forms used in the statements: what [fmt] puts before and
    after the message. *)
Definition isSevere (level : Level) : bool :=
  ((level =? ERROR) || (level =? FATAL))%bool.

Definition linePrefix (l : Logger) (env : Env) (level : Level) : string :=
  (if isStdStream (w l) then colorFromLevel level else "")
  ++ now env ++ " [" ++ colorFromLevel level ++ Level_string level
  ++ colorReset ++ "] " ++ name l ++ " ".

Definition stackText (level : Level) (st : string) : string :=
  " " ++ colorFromLevel level ++ "stracktrace " ++ colorReset ++ st.

Definition lineSuffix (env : Env) (level : Level) : string :=
  (if isSevere level then stackText level (stack env) else "") ++ newline.

(** The events of a run up to the first write. *)
Definition preEvents (level : Level) : list event :=
  EvLock :: EvNow :: (if isSevere level then [EvStack] else []).

(** [firstOf sel opts] is the first value [sel] picks in [opts];
    [lastOf sel opts] the last one. *)
Fixpoint firstOf {A : Type} (sel : LoggerOption -> option A)
         (opts : list LoggerOption) : option A :=
  match opts with
  | [] => None
  | o :: rest =>
      match sel o with
      | Some a => Some a
      | None => firstOf sel rest
      end
  end.

Definition lastOf {A : Type} (sel : LoggerOption -> option A)
           (opts : list LoggerOption) : option A :=
  firstOf sel (rev opts).

Definition selWriter (o : LoggerOption) : option Writer :=
  match o with WithWriter wr => Some wr | _ => None end.
Definition selName (o : LoggerOption) : option string :=
  match o with WithName n => Some n | _ => None end.
Definition selLevel (o : LoggerOption) : option string :=
  match o with WithLevel s => Some s | _ => None end.

Section WithSprintf.

(** [fmt.Sprintf] applied to the caller's template and arguments. *)
Variable Sprintf : string -> list any -> string.

(** [func (l *Logger) fmt(level Level, format string,
    args ...interface{}) string].  The two [Sprintf] calls with fixed
    templates have string operands only and are written as the
    concatenations they produce. *)
Definition fmt (l : Logger) (env : Env) (level : Level) (format : string)
           (args : list any) : M string :=
  ts <- time_Now env ;;
  let msg := Sprintf format args in
  let clr : color := if isStdStream (w l) then colorFromLevel level else "" in
  let lmsg := clr ++ ts ++ " [" ++ colorFromLevel level
              ++ Level_string level ++ colorReset ++ "] "
              ++ name l ++ " " ++ msg in
  lmsg <- (if ((level =? ERROR) || (level =? FATAL))%bool then
             st <- debug_Stack env ;;
             ret (lmsg ++ (" " ++ colorFromLevel level ++ "stracktrace "
                           ++ colorReset ++ st))
           else ret lmsg) ;;
  ret (lmsg ++ newline).

(** [func (l *Logger) logMsg(level Level, format string,
    args ...interface{})] *)
Definition logMsg (l : Logger) (env : Env) (level : Level)
           (format : string) (args : list any) : M unit :=
  if minLevel l >? level then ret tt
  else
    emit EvLock ;;
    defer (emit EvUnlock)
      (fmsg <- fmt l env level format args ;;
       werr <- Write (w l) fmsg ;;
       match werr with
       | Some e => Fprintf (w l) (writeFailed e) ;; ret tt
       | None => ret tt
       end ;;
       if level =? FATAL then os_Exit 1 else ret tt).

(** The ten public methods, as in the structured file. *)
Definition Debug (l : Logger) (env : Env) (format : string) : M unit :=
  logMsg l env DEBUG "%s" [VString format].
Definition Debugf (l : Logger) (env : Env) (format : string)
           (args : list any) : M unit :=
  logMsg l env DEBUG format args.
Definition Info (l : Logger) (env : Env) (format : string) : M unit :=
  logMsg l env INFO "%s" [VString format].
Definition Infof (l : Logger) (env : Env) (format : string)
           (args : list any) : M unit :=
  logMsg l env INFO format args.
Definition Warn (l : Logger) (env : Env) (format : string) : M unit :=
  logMsg l env WARN "%s" [VString format].
Definition Warnf (l : Logger) (env : Env) (format : string)
           (args : list any) : M unit :=
  logMsg l env WARN format args.
Definition Error (l : Logger) (env : Env) (format : string) : M unit :=
  logMsg l env ERROR "%s" [VString format].
Definition Errorf (l : Logger) (env : Env) (format : string)
           (args : list any) : M unit :=
  logMsg l env ERROR format args.
Definition Fatal (l : Logger) (env : Env) (format : string) : M unit :=
  logMsg l env FATAL "%s" [VString format].
Definition Fatalf (l : Logger) (env : Env) (format : string)
           (args : list any) : M unit :=
  logMsg l env FATAL format args.

(** A call of the public method [m]; the plain methods take no
    variadic arguments, so [args] is unused for them. *)
Definition call (m : method) (l : Logger) (env : Env) (format : string)
           (args : list any) : M unit :=
  match m with
  | MDebug => Debug l env format
  | MDebugf => Debugf l env format args
  | MInfo => Info l env format
  | MInfof => Infof l env format args
  | MWarn => Warn l env format
  | MWarnf => Warnf l env format args
  | MError => Error l env format
  | MErrorf => Errorf l env format args
  | MFatal => Fatal l env format
  | MFatalf => Fatalf l env format args
  end.

End WithSprintf.

End Plain.

(** ** Reference instances of the library functions

    [Json] is parametric in the byte encoding of [encoding/json] and
    [Plain] in [fmt.Sprintf].  The instances below cover the fragment the
    closed examples use: templates whose verbs are [%s], [%d], [%v], [%t]
    and [%%] without flags or width, and JSON text with the escapes of the
    quote and the backslash. *)
Module Sample.

Definition showZ (n : Z) : string := NilZero.string_of_int (Z.to_int n).

Definition showBool (b : bool) : string := if b then "true" else "false".

(** [type=value], as the diagnostics of [fmt] print an operand. *)
Definition typed (v : any) : string :=
  match v with
  | VString s => "string=" ++ s
  | VInt n => "int=" ++ showZ n
  | VBool b => "bool=" ++ showBool b
  | VNil => "<nil>"
  | VChan => "chan int=0xc000012345"
  end.

Definition verb (c : ascii) (v : any) : string :=
  let bad := "%!" ++ String c ("(" ++ typed v ++ ")") in
  match v with
  | VString s => if (Ascii.eqb c "s" || Ascii.eqb c "v")%bool then s else bad
  | VInt n => if (Ascii.eqb c "d" || Ascii.eqb c "v")%bool then showZ n else bad
  | VBool b =>
      if (Ascii.eqb c "t" || Ascii.eqb c "v")%bool then showBool b else bad
  | VNil => if Ascii.eqb c "v" then "<nil>" else bad
  | VChan => if Ascii.eqb c "v" then "0xc000012345" else bad
  end.

Fixpoint extras (args : list any) : string :=
  match args with
  | [] => ""
  | [v] => typed v
  | v :: rest => typed v ++ ", " ++ extras rest
  end.

Fixpoint Sprintf (format : string) (args : list any) : string :=
  match format with
  | EmptyString =>
      match args with
      | [] => ""
      | _ => "%!(EXTRA " ++ extras args ++ ")"
      end
  | String c rest =>
      if Ascii.eqb c "%" then
        match rest with
        | EmptyString => "%!(NOVERB)"
        | String v rest' =>
            if Ascii.eqb v "%" then String "%" (Sprintf rest' args)
            else
              match args with
              | [] => "%!" ++ String v ("(MISSING)" ++ Sprintf rest' [])
              | a :: args' => verb v a ++ Sprintf rest' args'
              end
        end
      else String c (Sprintf rest args)
  end.

Definition dquote : ascii := ascii_of_nat 34.

Fixpoint quoteBody (s : string) : string :=
  match s with
  | EmptyString => EmptyString
  | String c rest =>
      if (Ascii.eqb c dquote || Ascii.eqb c "\")%bool
      then String "\" (String c (quoteBody rest))
      else String c (quoteBody rest)
  end.

Definition quote (s : string) : string :=
  String dquote (quoteBody s ++ String dquote "").

Definition commas (parts : list string) : string :=
  match parts with
  | [] => ""
  | p :: rest => fold_left (fun acc q => acc ++ "," ++ q) rest p
  end.

Fixpoint jsonText (j : json) : string :=
  match j with
  | JNull => "null"
  | JBool b => showBool b
  | JNumber n => showZ n
  | JString s => quote s
  | JArray items => "[" ++ commas (map jsonText items) ++ "]"
  | JObject members =>
      "{" ++ commas (map (fun kv => quote (fst kv) ++ ":" ++ jsonText (snd kv))
                         members) ++ "}"
  end.

(** A sink that accepts every write. *)
Definition buffer : Writer := mkWriter (UserWriter 0) (fun _ _ => None).

(** A sink that refuses every write. *)
Definition broken : Writer :=
  mkWriter (UserWriter 1) (fun _ _ => Some "short write").

Definition env0 : Env := mkEnv "2024-05-06 07:08:09" "goroutine 1 [running]:".

End Sample.

(** ** Traces, sessions and the test file

    Definitions used to state what whole runs and sequences of calls do. *)

(** Events that happen while the lock is held: everything but locking,
    unlocking and exiting. *)
Definition isInner (e : event) : bool :=
  match e with
  | EvLock | EvUnlock | EvExit _ => false
  | _ => true
  end.

Definition isStack (e : event) : bool :=
  match e with EvStack => true | _ => false end.

Definition isNow (e : event) : bool :=
  match e with EvNow => true | _ => false end.

Definition isWrite (e : event) : bool :=
  match e with EvWrite _ _ => true | _ => false end.

(** How many events of a trace satisfy [p]. *)
Definition countEv (p : event -> bool) (evs : list event) : nat :=
  List.length (filter p evs).

(** Strings without the byte ['\n']. *)
Fixpoint noNewline (s : string) : bool :=
  match s with
  | EmptyString => true
  | String c rest =>
      (negb (Ascii.eqb c (ascii_of_nat 10)) && noNewline rest)%bool
  end.

(** One call of a public method, with the clock and stack of its time. *)
Record Call : Type := mkCall {
  cMethod : method;
  cEnv : Env;
  cFormat : string;
  cArgs : list any
}.

(** A caller that issues the calls one after the other on one logger. *)
Fixpoint runCalls (emitOne : Call -> M unit) (cs : list Call) : M unit :=
  match cs with
  | [] => ret tt
  | c :: rest => emitOne c ;; runCalls emitOne rest
  end.

Definition jsonEmit (jsonText : json -> string) (l : Json.Logger) (c : Call)
  : M unit :=
  Json.call jsonText (cMethod c) l (cEnv c) (cFormat c) (cArgs c).

Definition plainEmit (Sprintf : string -> list any -> string)
           (l : Plain.Logger) (c : Call) : M unit :=
  Plain.call Sprintf (cMethod c) l (cEnv c) (cFormat c) (cArgs c).

(** The payload an emitted call hands to the sink: the line of the
    plain-text rendering, the record of the structured one (for arguments
    that serialize). *)
Definition plainLine (Sprintf : string -> list any -> string)
           (l : Plain.Logger) (c : Call) : string :=
  Plain.linePrefix l (cEnv c) (methodLevel (cMethod c))
  ++ Sprintf (callFormat (cMethod c) (cFormat c))
             (callArgs (cMethod c) (cFormat c) (cArgs c))
  ++ Plain.lineSuffix (cEnv c) (methodLevel (cMethod c)).

Definition serializes (c : Call) : Prop :=
  exists fs, jsonOfList (callArgs (cMethod c) (cFormat c) (cArgs c)) = inr fs.

Definition jsonLine (jsonText : json -> string) (l : Json.Logger) (c : Call)
  : string :=
  match jsonOfList (callArgs (cMethod c) (cFormat c) (cArgs c)) with
  | inr fs =>
      jsonText (JObject (Json.recordMembers l (cEnv c) (methodLevel (cMethod c))
                           (callFormat (cMethod c) (cFormat c))
                           (callArgs (cMethod c) (cFormat c) (cArgs c)) fs))
      ++ newline
  | inl _ => ""
  end.

(** The calls of a session that pass the filter of a logger with
    threshold [minLevel]. *)
Definition passing (minLevel : Level) (cs : list Call) : list Call :=
  filter (fun c => negb (minLevel >? methodLevel (cMethod c))) cs.

(** Which field of the logger an option sets. *)
Inductive OptionKind : Type :=
| KWriter | KName | KLevel | KCaller | KStacktrace.

Definition optionKind (o : Json.LoggerOption) : OptionKind :=
  match o with
  | Json.WithWriter _ => KWriter
  | Json.WithName _ => KName
  | Json.WithLevel _ => KLevel
  | Json.WithCaller _ => KCaller
  | Json.WithStacktrace _ => KStacktrace
  end.

(** Two structured loggers that differ at most in [includeCaller]. *)
Definition sameButCaller (l1 l2 : Json.Logger) : Prop :=
  Json.w l1 = Json.w l2 /\ Json.minLevel l1 = Json.minLevel l2 /\
  Json.name l1 = Json.name l2 /\ Json.stacktrace l1 = Json.stacktrace l2.

(** Whether the member named [k] is written for the entry [en]: the
    omitempty tags of [entry], read field by field. *)
Definition presentMember (en : Json.entry) (k : string) : bool :=
  if (k =? "name")%string then negb (Json.Name en =? "")%string
  else if (k =? "level")%string then true
  else if (k =? "caller")%string then negb (Json.Caller en =? "")%string
  else if (k =? "msg")%string then negb (Json.Message en =? "")%string
  else if (k =? "fields")%string then
    match Json.Fields en with [] => false | _ => true end
  else if (k =? "stacktrace")%string then
    negb (Json.Stacktrace en =? "")%string
  else if (k =? "timestamp")%string then true
  else false.

(** *** [log_test.go]

    The tests use the exported API only, so they are written once over a
    [logger level wr]: the calls on [log.New(WithLevel(level),
    WithName("unit_test"), WithWriter(wr))].  [clock i] is the time and
    stack of the i-th emission call of a test. *)
Inductive verdict : Type := Passed | Failed.

(** [bytes.Buffer]: every write is accepted and appended. *)
Definition bytes_Buffer : Writer := mkWriter (UserWriter 0) (fun _ _ => None).

Fixpoint joined (ps : list string) : string :=
  match ps with
  | [] => ""
  | p :: rest => p ++ joined rest
  end.

(** [buf.Len()] in a test whose buffer is the only sink written to. *)
Definition buf_Len : M nat :=
  fun h => ([], Done (String.length (joined (writes h)))).

Section TestFile.

Variable logger :
  string -> Writer -> method -> Env -> string -> list any -> M unit.
Variable clock : nat -> Env.

(** [func TestDebug(t *testing.T)] *)
Definition TestDebug : M verdict :=
  logger "DEBUG" bytes_Buffer MDebug (clock 0) "unformatted" [] ;;
  logger "DEBUG" bytes_Buffer MDebugf (clock 1) "%d" [VInt 1] ;;
  n <- buf_Len ;;
  if Nat.eqb n 0 then ret Failed else ret Passed.

(** [func TestInfo(t *testing.T)]; [t.Fatalf] ends the test. *)
Definition TestInfo : M verdict :=
  logger "INFO" bytes_Buffer MDebug (clock 0) "unformatted" [] ;;
  n <- buf_Len ;;
  if negb (Nat.eqb n 0) then ret Failed
  else
    logger "INFO" bytes_Buffer MInfo (clock 1) "unformatted" [] ;;
    logger "INFO" bytes_Buffer MInfof (clock 2) "%d" [VInt 1] ;;
    n <- buf_Len ;;
    if Nat.eqb n 0 then ret Failed else ret Passed.

(** [func TestWarn(t *testing.T)] *)
Definition TestWarn : M verdict :=
  logger "WARN" bytes_Buffer MInfo (clock 0) "unformatted" [] ;;
  n <- buf_Len ;;
  if negb (Nat.eqb n 0) then ret Failed
  else
    logger "WARN" bytes_Buffer MWarn (clock 1) "unformatted" [] ;;
    logger "WARN" bytes_Buffer MWarnf (clock 2) "%d" [VInt 1] ;;
    n <- buf_Len ;;
    if Nat.eqb n 0 then ret Failed else ret Passed.

(** [func TestError(t *testing.T)] *)
Definition TestError : M verdict :=
  logger "ERROR" bytes_Buffer MInfo (clock 0) "unformatted" [] ;;
  n <- buf_Len ;;
  if negb (Nat.eqb n 0) then ret Failed
  else
    logger "ERROR" bytes_Buffer MError (clock 1) "unformatted" [] ;;
    logger "ERROR" bytes_Buffer MErrorf (clock 2) "%d" [VInt 1] ;;
    n <- buf_Len ;;
    if Nat.eqb n 0 then ret Failed else ret Passed.

End TestFile.

(** The logger of the tests, in each rendering. *)
Definition jsonTestLogger (jsonText : json -> string) (level : string)
           (wr : Writer) (m : method) (env : Env) (format : string)
           (args : list any) : M unit :=
  Json.call jsonText m
            (Json.New [Json.WithLevel level; Json.WithName "unit_test";
                       Json.WithWriter wr])
            env format args.

Definition plainTestLogger (Sprintf : string -> list any -> string)
           (level : string) (wr : Writer) (m : method) (env : Env)
           (format : string) (args : list any) : M unit :=
  Plain.call Sprintf m
             (Plain.New [Plain.WithLevel level; Plain.WithName "unit_test";
                         Plain.WithWriter wr])
             env format args.

(** * Verification *)

(** ** Levels *)

Lemma lowerAscii_small (a : ascii) :
  (nat_of_ascii (lowerAscii a) < 128)%nat -> (nat_of_ascii a < 128)%nat.
Proof.
  destruct a as [b0 b1 b2 b3 b4 b5 b6 b7].
  destruct b7; [|intros _; destruct b0, b1, b2, b3, b4, b5, b6; vm_compute; lia].
  destruct b0, b1, b2, b3, b4, b5, b6; vm_compute; lia.
Qed.

Lemma small_not_byte (a : ascii) (n : nat) :
  (nat_of_ascii a < 128)%nat -> (128 <= n)%nat -> isByte n a = false.
Proof.
  intros Ha Hn. unfold isByte. apply Nat.eqb_neq. lia.
Qed.

(** On a byte below 128 [ToLower] is ASCII lower-casing. *)
Lemma ToLower_ascii (a : ascii) (s : string) :
  (nat_of_ascii a < 128)%nat ->
  ToLower (String a s) = String (lowerAscii a) (ToLower s).
Proof.
  intros Ha.
  assert (H196 : isByte 196 a = false) by (apply small_not_byte; lia).
  assert (H226 : isByte 226 a = false) by (apply small_not_byte; lia).
  destruct s as [|c1 [|c2 r]]; cbn [ToLower]; rewrite ?H196, ?H226; reflexivity.
Qed.

Lemma equalFold_ToLower (t s : string) :
  isLower t = true -> equalFoldAscii s t = true -> ToLower s = t.
Proof.
  revert s. induction t as [|b t IH]; intros s Ht Hs.
  - destruct s; [reflexivity | discriminate].
  - destruct s as [|a s]; [discriminate|].
    cbn [isLower] in Ht. cbn [equalFoldAscii] in Hs.
    apply andb_true_iff in Ht as [Ht Ht3]. apply andb_true_iff in Ht as [Ht1 Ht2].
    apply andb_true_iff in Hs as [Hs1 Hs2].
    apply Nat.ltb_lt in Ht1. apply Ascii.eqb_eq in Ht2, Hs1.
    rewrite Ht2 in Hs1.
    rewrite ToLower_ascii by (apply lowerAscii_small; rewrite Hs1; exact Ht1).
    rewrite Hs1, (IH s Ht3 Hs2). reflexivity.
Qed.

Lemma ToLower_equalFold (s t : string) :
  isAscii s = true -> isLower t = true -> ToLower s = t ->
  equalFoldAscii s t = true.
Proof.
  revert t. induction s as [|a s IH]; intros t Hs Ht E.
  - cbn in E. subst t. reflexivity.
  - cbn [isAscii] in Hs. apply andb_true_iff in Hs as [Ha Hs].
    apply Nat.ltb_lt in Ha. rewrite (ToLower_ascii _ _ Ha) in E.
    destruct t as [|b t]; [discriminate|]. injection E as E1 E2.
    cbn [isLower] in Ht.
    apply andb_true_iff in Ht as [Ht Ht3]. apply andb_true_iff in Ht as [_ Ht2].
    apply Ascii.eqb_eq in Ht2.
    cbn [equalFoldAscii]. rewrite Ht2, E1, Ascii.eqb_refl.
    exact (IH t Hs Ht3 E2).
Qed.

Lemma levelFromString_cases (s : string) :
  levelFromString s = DEBUG \/ levelFromString s = INFO \/
  levelFromString s = WARN \/ levelFromString s = ERROR \/
  levelFromString s = FATAL.
Proof.
  unfold levelFromString. cbv zeta.
  destruct (ToLower s =? "info")%string; [auto|].
  destruct (ToLower s =? "warn")%string; [auto|].
  destruct (ToLower s =? "error")%string; [auto|].
  destruct (ToLower s =? "fatal")%string; auto 6.
Qed.

Lemma levelFromString_range (s : string) :
  DEBUG <= levelFromString s <= FATAL.
Proof.
  destruct (levelFromString_cases s) as [H | [H | [H | [H | H]]]];
    rewrite H; unfold DEBUG, INFO, WARN, ERROR, FATAL; lia.
Qed.

(** The level is decided by the lower-cased string alone. *)
Lemma levelFromString_exact (s : string) :
  (levelFromString s = INFO <-> ToLower s = "info") /\
  (levelFromString s = WARN <-> ToLower s = "warn") /\
  (levelFromString s = ERROR <-> ToLower s = "error") /\
  (levelFromString s = FATAL <-> ToLower s = "fatal").
Proof.
  unfold levelFromString. cbv zeta.
  destruct (ToLower s =? "info")%string eqn:E1;
    [apply String.eqb_eq in E1; rewrite E1;
     repeat split; intros C; solve [reflexivity | discriminate C]|].
  destruct (ToLower s =? "warn")%string eqn:E2;
    [apply String.eqb_eq in E2; rewrite E2;
     repeat split; intros C; solve [reflexivity | discriminate C]|].
  destruct (ToLower s =? "error")%string eqn:E3;
    [apply String.eqb_eq in E3; rewrite E3;
     repeat split; intros C; solve [reflexivity | discriminate C]|].
  destruct (ToLower s =? "fatal")%string eqn:E4;
    [apply String.eqb_eq in E4; rewrite E4;
     repeat split; intros C; solve [reflexivity | discriminate C]|].
  apply String.eqb_neq in E1, E2, E3, E4.
  repeat split; intros C; solve [discriminate C | contradiction].
Qed.

(** C6 (amended). [levelFromString] is total and signals no error: the
    result is always one of the five levels.  It is INFO, WARN, ERROR or
    FATAL exactly when the lower-cased string ([strings.ToLower]) is info,
    warn, error or fatal, and DEBUG otherwise.  So a string that spells one
    of the four words in any mix of ASCII upper and lower case yields that
    level, and every ASCII string that spells none of them yields DEBUG.
    (A string outside ASCII can lower-case to one of the words without
    spelling it: see [levelFromString_dotted_capital_I].) *)
Theorem levelFromString_case_insensitive_total (s : string) :
  (equalFoldAscii s "info" = true -> levelFromString s = INFO) /\
  (equalFoldAscii s "warn" = true -> levelFromString s = WARN) /\
  (equalFoldAscii s "error" = true -> levelFromString s = ERROR) /\
  (equalFoldAscii s "fatal" = true -> levelFromString s = FATAL) /\
  (ToLower s <> "info" -> ToLower s <> "warn" -> ToLower s <> "error" ->
   ToLower s <> "fatal" -> levelFromString s = DEBUG) /\
  (isAscii s = true ->
   equalFoldAscii s "info" = false -> equalFoldAscii s "warn" = false ->
   equalFoldAscii s "error" = false -> equalFoldAscii s "fatal" = false ->
   levelFromString s = DEBUG) /\
  (levelFromString s = DEBUG \/ levelFromString s = INFO \/
   levelFromString s = WARN \/ levelFromString s = ERROR \/
   levelFromString s = FATAL) /\
  (levelFromString s = INFO <-> ToLower s = "info") /\
  (levelFromString s = WARN <-> ToLower s = "warn") /\
  (levelFromString s = ERROR <-> ToLower s = "error") /\
  (levelFromString s = FATAL <-> ToLower s = "fatal").
Proof.
  pose proof (levelFromString_exact s) as (X1 & X2 & X3 & X4).
  assert (Hother : ToLower s <> "info" -> ToLower s <> "warn" ->
                   ToLower s <> "error" -> ToLower s <> "fatal" ->
                   levelFromString s = DEBUG).
  { intros H1 H2 H3 H4. unfold levelFromString.
    apply String.eqb_neq in H1, H2, H3, H4.
    cbv zeta. rewrite H1, H2, H3, H4. reflexivity. }
  repeat split.
  - intros H. apply equalFold_ToLower in H; [|reflexivity].
    unfold levelFromString. rewrite H. reflexivity.
  - intros H. apply equalFold_ToLower in H; [|reflexivity].
    unfold levelFromString. rewrite H. reflexivity.
  - intros H. apply equalFold_ToLower in H; [|reflexivity].
    unfold levelFromString. rewrite H. reflexivity.
  - intros H. apply equalFold_ToLower in H; [|reflexivity].
    unfold levelFromString. rewrite H. reflexivity.
  - exact Hother.
  - intros Ha H1 H2 H3 H4. apply Hother; intros E.
    + apply (ToLower_equalFold s _ Ha) in E; [congruence | reflexivity].
    + apply (ToLower_equalFold s _ Ha) in E; [congruence | reflexivity].
    + apply (ToLower_equalFold s _ Ha) in E; [congruence | reflexivity].
    + apply (ToLower_equalFold s _ Ha) in E; [congruence | reflexivity].
  - apply levelFromString_cases.
  - apply X1.
  - apply X1.
  - apply X2.
  - apply X2.
  - apply X3.
  - apply X3.
  - apply X4.
  - apply X4.
Qed.

(** C6 as stated fails outside ASCII.  The two bytes 196 176 encode U+0130,
    capital I with a dot above, which [strings.ToLower] lowers to the ASCII
    letter i.  Followed by "nfo" they spell none of the four words under
    case folding, and yet the string yields INFO, not DEBUG. *)
Lemma levelFromString_dotted_capital_I :
  let s := String (ascii_of_nat 196) (String (ascii_of_nat 176) "nfo") in
  equalFoldAscii s "info" = false /\ equalFoldAscii s "warn" = false /\
  equalFoldAscii s "error" = false /\ equalFoldAscii s "fatal" = false /\
  levelFromString s = INFO /\ levelFromString s <> DEBUG.
Proof.
  cbv zeta. repeat split; try reflexivity. intros C. discriminate C.
Qed.

(** ["Warn"] spells warn, ["bogus"] spells none of the four words. *)
Lemma levelFromString_case_insensitive_total_witness :
  levelFromString "Warn" = WARN /\ levelFromString "bogus" = DEBUG.
Proof.
  split.
  - apply (proj1 (proj2 (levelFromString_case_insensitive_total "Warn"))).
    reflexivity.
  - apply (proj1 (proj2 (proj2 (proj2 (proj2 (proj2
             (levelFromString_case_insensitive_total "bogus"))))))).
    + reflexivity.
    + reflexivity.
    + reflexivity.
    + reflexivity.
    + reflexivity.
Defined.

(** The samples the specification lists. *)
Example levelFromString_samples :
  map levelFromString ["Warn"; "WARN"; "warn"; "iNfO"; "Error"; "FATAL";
                       "bogus"; "trace"; ""; "debug"; "warning"]
  = [WARN; WARN; WARN; INFO; ERROR; FATAL; DEBUG; DEBUG; DEBUG; DEBUG; DEBUG].
Proof. reflexivity. Qed.


(** ** Running [fmt] and [logMsg] *)


Lemma entry_eta (en : Json.entry) :
  Json.mkEntry (Json.Name en) (Json.Level' en) (Json.Caller en)
               (Json.Message en) (Json.Fields en) (Json.Stacktrace en)
               (Json.Timestamp en) = en.
Proof. destruct en; reflexivity. Qed.

(** The loop of [fmt]: it appends the arguments in order and, when the
    stack is on, captures it once per argument. *)
Lemma Json_fmtArgs_run (l : Json.Logger) (env : Env) (level : Level)
      (args : list any) :
  forall (en : Json.entry) (h : list event),
    Json.fmtArgs l env level args en h =
    ((if Json.stackOn l level then repeat EvStack (List.length args) else []),
     Done (Json.mkEntry (Json.Name en) (Json.Level' en) (Json.Caller en)
             (Json.Message en) (Json.Fields en ++ args)%list
             (match args with
              | [] => Json.Stacktrace en
              | _ => if Json.stackOn l level
                     then Json.stackText level (stack env)
                     else Json.Stacktrace en
              end)
             (Json.Timestamp en))).
Proof.
  induction args as [|a rest IH]; intros en h.
  - cbn. rewrite app_nil_r, entry_eta. destruct (Json.stackOn l level); reflexivity.
  - cbn [Json.fmtArgs]. unfold bind.
    unfold Json.stackOn in *.
    destruct ((level =? ERROR) || (level =? FATAL))%bool eqn:Elv;
      destruct (Json.stacktrace l) eqn:Est; cbn -[Json.fmtArgs Json.stackText];
      rewrite IH; cbn -[Json.stackText]; rewrite <- app_assoc; cbn -[Json.stackText];
      destruct rest; reflexivity.
Qed.

Lemma Json_fmt_run (l : Json.Logger) (env : Env) (level : Level)
      (format : string) (args : list any) (h : list event) :
  Json.fmt l env level format args h =
  (EvNow :: (if Json.stackOn l level then repeat EvStack (List.length args) else []),
   Done (Json.fmtEntry l env level format args)).
Proof.
  unfold Json.fmt, bind, time_Now. rewrite Json_fmtArgs_run.
  destruct args; reflexivity.
Qed.

(** ** Facts about traces *)

Lemma writes_app (a b : list event) :
  writes (a ++ b) = (writes a ++ writes b)%list.
Proof.
  induction a as [|e a IH]; [reflexivity|].
  destruct e; cbn; rewrite IH; reflexivity.
Qed.

Lemma writes_repeat_stack (n : nat) : writes (repeat EvStack n) = [].
Proof. induction n; [reflexivity | exact IHn]. Qed.

Lemma writes_Json_preEvents (l : Json.Logger) (level : Level) (args : list any) :
  writes (Json.preEvents l level args) = [].
Proof.
  unfold Json.preEvents. cbn.
  destruct (Json.stackOn l level); [apply writes_repeat_stack | reflexivity].
Qed.

Lemma writes_Plain_preEvents (level : Level) :
  writes (Plain.preEvents level) = [].
Proof. unfold Plain.preEvents. destruct (Plain.isSevere level); reflexivity. Qed.

(** The payloads of a run of shape [logShape]. *)
Lemma writes_logShape (level : Level) (pre : list event)
      (diag : option (string * option string)) (p : string)
      (werr ferr : option string) :
  writes pre = [] ->
  writes (fst (logShape level pre diag p werr ferr)) =
  (match diag with Some (d, _) => [d] | None => [] end
   ++ p :: match werr with Some e => [writeFailed e] | None => [] end)%list.
Proof.
  intros Hpre. unfold logShape, shapeBody. cbn [fst].
  rewrite !writes_app, Hpre. cbn [app].
  destruct diag as [[d e]|], werr as [e'|], (level =? FATAL); reflexivity.
Qed.


Lemma append_newline_nonempty (s : string) : s ++ newline <> "".
Proof. destruct s; discriminate. Qed.

Lemma append_nonempty_r (a b : string) : b <> "" -> a ++ b <> "".
Proof. destruct a; [trivial | discriminate]. Qed.



Lemma plain_line_nonempty (a b : string) (env : Env) (level : Level) :
  a ++ b ++ Plain.lineSuffix env level <> "".
Proof.
  apply append_nonempty_r, append_nonempty_r. unfold Plain.lineSuffix.
  apply append_newline_nonempty.
Qed.

Lemma marshalEntry_fmtEntry (l : Json.Logger) (env : Env) (level : Level)
      (format : string) (args : list any) :
  Json.marshalEntry (Json.fmtEntry l env level format args) =
  match jsonOfList args with
  | inl e => inl e
  | inr fs => inr (JObject (Json.recordMembers l env level format args fs))
  end.
Proof.
  unfold Json.marshalEntry, Json.fmtEntry, Json.recordMembers.
  cbn [Json.Fields Json.Name Json.Level' Json.Caller Json.Message
       Json.Stacktrace Json.Timestamp].
  destruct (jsonOfList args); reflexivity.
Qed.

Section JsonRuns.

Variable jsonText : json -> string.

Lemma Json_call_logMsg (m : method) (l : Json.Logger) (env : Env)
      (format : string) (args : list any) :
  Json.call jsonText m l env format args =
  Json.logMsg jsonText l env (methodLevel m) (callFormat m format)
              (callArgs m format args).
Proof. destruct m; reflexivity. Qed.

Lemma Json_logMsg_filtered (l : Json.Logger) (env : Env) (level : Level)
      (format : string) (args : list any) (h : list event) :
  Json.minLevel l > level ->
  Json.logMsg jsonText l env level format args h = ([], Done tt).
Proof.
  intros H. unfold Json.logMsg.
  apply Z.gtb_gt in H. rewrite H. reflexivity.
Qed.

(** Without a sink the first write panics; the deferred unlock runs. *)
Lemma Json_logMsg_no_sink (l : Json.Logger) (env : Env) (level : Level)
      (format : string) (args : list any) (h : list event) :
  Json.w l = None -> ~ Json.minLevel l > level ->
  Json.logMsg jsonText l env level format args h =
  ((Json.preEvents l level args ++ [EvUnlock])%list, Abort (Panic nilDeref)).
Proof.
  intros Hw Hf. unfold Json.logMsg.
  destruct (Json.minLevel l >? level) eqn:E; [apply Z.gtb_gt in E; contradiction|].
  unfold bind, defer, emit. rewrite Json_fmt_run.
  unfold Json.json_Marshal, Fprintf, Write. rewrite Hw.
  destruct (Json.marshalEntry (Json.fmtEntry l env level format args));
    cbn; rewrite ?app_nil_r; reflexivity.
Qed.

Lemma Json_logMsg_run (l : Json.Logger) (env : Env) (level : Level)
      (format : string) (args : list any) (h : list event) (wr : Writer) :
  Json.w l = Some wr -> ~ Json.minLevel l > level ->
  exists hd hw hf : list event,
    Json.logMsg jsonText l env level format args h =
    match Json.marshalEntry (Json.fmtEntry l env level format args) with
    | inl e =>
        logShape level (Json.preEvents l level args)
          (Some (Json.marshalFailed e format,
                 accept wr hd (Json.marshalFailed e format)))
          newline (accept wr hw newline)
          (accept wr hf (writeFailed
                           match accept wr hw newline with
                           | Some e' => e' | None => "" end))
    | inr j =>
        logShape level (Json.preEvents l level args) None
          (jsonText j ++ newline) (accept wr hw (jsonText j ++ newline))
          (accept wr hf (writeFailed
                           match accept wr hw (jsonText j ++ newline) with
                           | Some e' => e' | None => "" end))
    end.
Proof.
  intros Hw Hf. unfold Json.logMsg.
  destruct (Json.minLevel l >? level) eqn:E; [apply Z.gtb_gt in E; contradiction|].
  unfold bind, defer, emit. rewrite Json_fmt_run.
  unfold Json.json_Marshal, Fprintf, Write, logShape, shapeBody, Json.preEvents.
  rewrite Hw.
  set (hd := ((h ++ [EvLock]) ++ EvNow
               :: (if Json.stackOn l level
                   then repeat EvStack (List.length args) else []))%list).
  destruct (Json.marshalEntry (Json.fmtEntry l env level format args)) as [e|j].
  - set (d := Json.marshalFailed e format).
    set (hw := (hd ++ [EvWrite d (accept wr hd d)])%list).
    exists hd, hw, (hw ++ [EvWrite newline (accept wr hw newline)])%list.
    cbn -[newline Json.marshalFailed writeFailed]. fold d. fold hw.
    destruct (accept wr hw newline) as [e'|] eqn:Ew;
      destruct (level =? FATAL); cbn -[newline Json.marshalFailed writeFailed];
      rewrite ?Ew, <- ?app_assoc; reflexivity.
  - set (p := jsonText j ++ newline).
    exists hd, (hd ++ [])%list, ((hd ++ []) ++ [EvWrite p (accept wr (hd ++ []) p)])%list.
    cbn -[newline writeFailed]. fold p.
    destruct (accept wr (hd ++ []) p) as [e'|] eqn:Ew;
      destruct (level =? FATAL); cbn -[newline writeFailed];
      rewrite ?Ew, <- ?app_assoc; reflexivity.
Qed.

End JsonRuns.

Lemma append_assoc3 (a b c : string) : (a ++ b) ++ c = a ++ b ++ c.
Proof. induction a as [|x a IH]; cbn; [reflexivity | now rewrite IH]. Qed.

Section PlainRuns.

Variable Sprintf : string -> list any -> string.

Lemma Plain_call_logMsg (m : method) (l : Plain.Logger) (env : Env)
      (format : string) (args : list any) :
  Plain.call Sprintf m l env format args =
  Plain.logMsg Sprintf l env (methodLevel m) (callFormat m format)
               (callArgs m format args).
Proof. destruct m; reflexivity. Qed.

Lemma Plain_fmt_run (l : Plain.Logger) (env : Env) (level : Level)
      (format : string) (args : list any) (h : list event) :
  Plain.fmt Sprintf l env level format args h =
  (EvNow :: (if Plain.isSevere level then [EvStack] else []),
   Done (Plain.linePrefix l env level ++ Sprintf format args
         ++ Plain.lineSuffix env level)).
Proof.
  unfold Plain.fmt, bind, time_Now, debug_Stack, ret, Plain.linePrefix,
    Plain.lineSuffix, Plain.isSevere, Plain.stackText.
  destruct ((level =? ERROR) || (level =? FATAL))%bool;
    cbn -[newline colorFromLevel Level_string colorReset String.append];
    rewrite ?append_assoc3; reflexivity.
Qed.

Lemma Plain_logMsg_filtered (l : Plain.Logger) (env : Env) (level : Level)
      (format : string) (args : list any) (h : list event) :
  Plain.minLevel l > level ->
  Plain.logMsg Sprintf l env level format args h = ([], Done tt).
Proof.
  intros H. unfold Plain.logMsg.
  apply Z.gtb_gt in H. rewrite H. reflexivity.
Qed.

Lemma Plain_logMsg_no_sink (l : Plain.Logger) (env : Env) (level : Level)
      (format : string) (args : list any) (h : list event) :
  Plain.w l = None -> ~ Plain.minLevel l > level ->
  Plain.logMsg Sprintf l env level format args h =
  ((Plain.preEvents level ++ [EvUnlock])%list, Abort (Panic nilDeref)).
Proof.
  intros Hw Hf. unfold Plain.logMsg.
  destruct (Plain.minLevel l >? level) eqn:E; [apply Z.gtb_gt in E; contradiction|].
  unfold bind, defer, emit. rewrite Plain_fmt_run.
  unfold Write, Plain.preEvents. rewrite Hw.
  destruct (Plain.isSevere level); reflexivity.
Qed.

Lemma Plain_logMsg_run (l : Plain.Logger) (env : Env) (level : Level)
      (format : string) (args : list any) (h : list event) (wr : Writer) :
  Plain.w l = Some wr -> ~ Plain.minLevel l > level ->
  exists hw hf : list event,
    let p := Plain.linePrefix l env level ++ Sprintf format args
             ++ Plain.lineSuffix env level in
    Plain.logMsg Sprintf l env level format args h =
    logShape level (Plain.preEvents level) None p (accept wr hw p)
      (accept wr hf (writeFailed match accept wr hw p with
                                 | Some e' => e' | None => "" end)).
Proof.
  intros Hw Hf. unfold Plain.logMsg.
  destruct (Plain.minLevel l >? level) eqn:E; [apply Z.gtb_gt in E; contradiction|].
  unfold bind, defer, emit. rewrite Plain_fmt_run.
  unfold Fprintf, Write, logShape, shapeBody, Plain.preEvents. rewrite Hw.
  set (hd := ((h ++ [EvLock]) ++ EvNow
               :: (if Plain.isSevere level then [EvStack] else []))%list).
  set (p := Plain.linePrefix l env level ++ Sprintf format args
            ++ Plain.lineSuffix env level).
  exists hd, (hd ++ [EvWrite p (accept wr hd p)])%list.
  cbn -[writeFailed]. fold p.
  destruct (accept wr hd p) as [e'|] eqn:Ew;
    destruct (level =? FATAL); cbn -[writeFailed];
    rewrite ?Ew, <- ?app_assoc; reflexivity.
Qed.

End PlainRuns.

(** ** Filtering and the number of writes *)

Lemma Json_emission_writes (jsonText : json -> string) (l : Json.Logger)
      (env : Env) (level : Level) (format : string) (args : list any)
      (h : list event) (wr : Writer) :
  Json.w l = Some wr -> ~ Json.minLevel l > level ->
  let r := Json.logMsg jsonText l env level format args h in
  writes (fst r) <> [] /\
  Forall (fun p => p <> "") (writes (fst r)) /\
  ((forall h' p, accept wr h' p = None) ->
   (exists fs, jsonOfList args = inr fs) ->
   exists p, writes (fst r) = [p] /\ p <> "").
Proof.
  intros Hw Hf r. subst r.
  destruct (Json_logMsg_run jsonText l env level format args h wr Hw Hf)
    as (hd & hw & hf & E).
  rewrite E, marshalEntry_fmtEntry. clear E.
  destruct (jsonOfList args) as [e|fs];
    rewrite writes_logShape by apply writes_Json_preEvents.
  - split; [discriminate|]. split.
    + destruct (accept wr hw newline); repeat constructor; discriminate.
    + intros _ [fs Hfs]. discriminate.
  - split; [discriminate|]. split.
    + destruct (accept wr hw _); repeat constructor;
        try apply append_newline_nonempty; discriminate.
    + intros Hacc _. rewrite Hacc. eexists. split; [reflexivity|].
      apply append_newline_nonempty.
Qed.

Lemma Plain_emission_writes (Sprintf : string -> list any -> string)
      (l : Plain.Logger) (env : Env) (level : Level) (format : string)
      (args : list any) (h : list event) (wr : Writer) :
  Plain.w l = Some wr -> ~ Plain.minLevel l > level ->
  let r := Plain.logMsg Sprintf l env level format args h in
  writes (fst r) <> [] /\
  Forall (fun p => p <> "") (writes (fst r)) /\
  ((forall h' p, accept wr h' p = None) ->
   exists p, writes (fst r) = [p] /\ p <> "").
Proof.
  intros Hw Hf r. subst r.
  destruct (Plain_logMsg_run Sprintf l env level format args h wr Hw Hf)
    as (hw & hf & E).
  cbv zeta in E. rewrite E. clear E.
  rewrite writes_logShape by apply writes_Plain_preEvents.
  split; [discriminate|]. split.
  - destruct (accept wr hw _); repeat constructor;
      try apply plain_line_nonempty; discriminate.
  - intros Hacc. rewrite Hacc. eexists. split; [reflexivity|].
    apply plain_line_nonempty.
Qed.

(** C1 (amended).  In both renderings a call of any of the ten public
    methods produces no event at all -- no lock, no clock read, no write --
    exactly when the logger's minimum level is greater than the method's
    level.  Otherwise, on a logger with a sink, the sink is handed at least
    one payload and only non-empty payloads; it is handed exactly one when it
    accepts its writes and, in the structured rendering, the arguments can be
    serialized. *)
Theorem emission_filtered_iff_below_minimum :
  (forall (jsonText : json -> string) (m : method) (l : Json.Logger)
          (env : Env) (format : string) (args : list any) (h : list event),
      let r := Json.call jsonText m l env format args h in
      (fst r = [] <-> Json.minLevel l > methodLevel m) /\
      (Json.minLevel l > methodLevel m -> r = ([], Done tt)) /\
      (forall wr, Json.w l = Some wr ->
         (writes (fst r) = [] <-> Json.minLevel l > methodLevel m) /\
         Forall (fun p => p <> "") (writes (fst r)) /\
         (~ Json.minLevel l > methodLevel m ->
          (forall h' p, accept wr h' p = None) ->
          (exists fs, jsonOfList (callArgs m format args) = inr fs) ->
          exists p, writes (fst r) = [p] /\ p <> ""))) /\
  (forall (Sprintf : string -> list any -> string) (m : method)
          (l : Plain.Logger) (env : Env) (format : string) (args : list any)
          (h : list event),
      let r := Plain.call Sprintf m l env format args h in
      (fst r = [] <-> Plain.minLevel l > methodLevel m) /\
      (Plain.minLevel l > methodLevel m -> r = ([], Done tt)) /\
      (forall wr, Plain.w l = Some wr ->
         (writes (fst r) = [] <-> Plain.minLevel l > methodLevel m) /\
         Forall (fun p => p <> "") (writes (fst r)) /\
         (~ Plain.minLevel l > methodLevel m ->
          (forall h' p, accept wr h' p = None) ->
          exists p, writes (fst r) = [p] /\ p <> ""))).
Proof.
  split.
  - intros jsonText m l env format args h r. subst r.
    rewrite Json_call_logMsg.
    set (level := methodLevel m). set (f := callFormat m format).
    set (a := callArgs m format args).
    destruct (Z_gt_dec (Json.minLevel l) level) as [Hgt|Hle].
    + rewrite (Json_logMsg_filtered jsonText l env level f a h Hgt). cbn.
      repeat split; auto. intros; contradiction.
    + split; [|split; [intros; contradiction|]].
      * split; [|intros; contradiction]. intros E. exfalso.
        destruct (Json.w l) as [wr|] eqn:Hw.
        -- destruct (Json_emission_writes jsonText l env level f a h wr Hw Hle)
             as (Hne & _). rewrite E in Hne. apply Hne. reflexivity.
        -- rewrite (Json_logMsg_no_sink jsonText l env level f a h Hw Hle) in E.
           discriminate.
      * intros wr Hw.
        destruct (Json_emission_writes jsonText l env level f a h wr Hw Hle)
          as (Hne & Hall & Hone).
        split; [split; [intros E; contradiction | intros; contradiction]|].
        split; [exact Hall|]. intros _. exact Hone.
  - intros Sprintf m l env format args h r. subst r.
    rewrite Plain_call_logMsg.
    set (level := methodLevel m). set (f := callFormat m format).
    set (a := callArgs m format args).
    destruct (Z_gt_dec (Plain.minLevel l) level) as [Hgt|Hle].
    + rewrite (Plain_logMsg_filtered Sprintf l env level f a h Hgt). cbn.
      repeat split; auto. intros; contradiction.
    + split; [|split; [intros; contradiction|]].
      * split; [|intros; contradiction]. intros E. exfalso.
        destruct (Plain.w l) as [wr|] eqn:Hw.
        -- destruct (Plain_emission_writes Sprintf l env level f a h wr Hw Hle)
             as (Hne & _). rewrite E in Hne. apply Hne. reflexivity.
        -- rewrite (Plain_logMsg_no_sink Sprintf l env level f a h Hw Hle) in E.
           destruct (Plain.isSevere level); discriminate.
      * intros wr Hw.
        destruct (Plain_emission_writes Sprintf l env level f a h wr Hw Hle)
          as (Hne & Hall & Hone).
        split; [split; [intros E; contradiction | intros; contradiction]|].
        split; [exact Hall|]. intros _. exact Hone.
Qed.

(** A logger at minimum level INFO on a sink that accepts: [Debug] leaves
    no event, [Info] and the structured [Infof("%d", 1)] hand the sink
    exactly one non-empty payload. *)
Lemma emission_filtered_iff_below_minimum_witness :
  let lp := Plain.New [Plain.WithLevel "INFO"; Plain.WithWriter Sample.buffer] in
  let lj := Json.New [Json.WithLevel "INFO"; Json.WithWriter Sample.buffer] in
  Plain.call Sample.Sprintf MDebug lp Sample.env0 "x" [] [] = ([], Done tt) /\
  (exists p, writes (fst (Plain.call Sample.Sprintf MInfo lp Sample.env0
                            "x" [] [])) = [p] /\ p <> "") /\
  (exists p, writes (fst (Json.call Sample.jsonText MInfof lj Sample.env0
                            "%d" [VInt 1] [])) = [p] /\ p <> "").
Proof.
  cbv zeta. split; [|split].
  - destruct (proj2 emission_filtered_iff_below_minimum Sample.Sprintf MDebug
                (Plain.New [Plain.WithLevel "INFO";
                            Plain.WithWriter Sample.buffer])
                Sample.env0 "x" [] []) as (_ & H & _).
    apply H. reflexivity.
  - destruct (proj2 emission_filtered_iff_below_minimum Sample.Sprintf MInfo
                (Plain.New [Plain.WithLevel "INFO";
                            Plain.WithWriter Sample.buffer])
                Sample.env0 "x" [] []) as (_ & _ & H).
    destruct (H Sample.buffer eq_refl) as (_ & _ & H1).
    apply H1.
    + intros C; discriminate C.
    + reflexivity.
  - destruct (proj1 emission_filtered_iff_below_minimum Sample.jsonText MInfof
                (Json.New [Json.WithLevel "INFO";
                           Json.WithWriter Sample.buffer])
                Sample.env0 "%d" [VInt 1] []) as (_ & _ & H).
    destruct (H Sample.buffer eq_refl) as (_ & _ & H1).
    apply H1.
    + intros C; discriminate C.
    + reflexivity.
    + exists [JNumber 1]. reflexivity.
Defined.

(** C1 as stated fails on both fallback paths of [logMsg].  Plain-text
    rendering, on a sink that refuses its writes: [Info("x")] passes the
    filter and the sink is handed the line and then the write-failure
    diagnostic.  Structured rendering, on a sink that accepts every write:
    [Infof("x", ch)] with a channel [ch] passes the filter and the sink is
    handed the serialization diagnostic and then a bare newline. *)
Lemma emission_two_writes_on_failure :
  let lp := Plain.New [Plain.WithWriter Sample.broken] in
  let rp := Plain.call Sample.Sprintf MInfo lp Sample.env0 "x" [] [] in
  let lj := Json.New [Json.WithWriter Sample.buffer] in
  let rj := Json.call Sample.jsonText MInfof lj Sample.env0 "x" [VChan] [] in
  (writes (fst rp) =
     [now Sample.env0 ++ " [" ++ colorGreen ++ "INFO" ++ colorReset ++ "]  x"
      ++ newline;
      "failed to write to out: short write"] /\
   ~ ((writes (fst rp) = [] <-> Plain.minLevel lp > methodLevel MInfo) /\
      (~ Plain.minLevel lp > methodLevel MInfo ->
       exists p, writes (fst rp) = [p] /\ p <> ""))) /\
  (writes (fst rj) =
     [Json.marshalFailed "json: unsupported type: chan int" "x"; newline] /\
   ~ ((writes (fst rj) = [] <-> Json.minLevel lj > methodLevel MInfof) /\
      (~ Json.minLevel lj > methodLevel MInfof ->
       exists p, writes (fst rj) = [p] /\ p <> ""))).
Proof.
  cbv zeta. split; (split; [reflexivity|]); intros [_ H];
    (destruct H as (p & E & _); [intros C; discriminate C|]);
    vm_compute in E; discriminate E.
Qed.

(** ** Termination on FATAL *)

Lemma exits_app (a b : list event) : exits (a ++ b) = (exits a ++ exits b)%list.
Proof.
  induction a as [|e a IH]; [reflexivity|].
  destruct e; cbn; rewrite IH; reflexivity.
Qed.

Lemma exits_repeat_stack (n : nat) : exits (repeat EvStack n) = [].
Proof. induction n; [reflexivity | exact IHn]. Qed.

Lemma exits_Json_preEvents (l : Json.Logger) (level : Level) (args : list any) :
  exits (Json.preEvents l level args) = [].
Proof.
  unfold Json.preEvents. cbn.
  destruct (Json.stackOn l level); [apply exits_repeat_stack | reflexivity].
Qed.

Lemma exits_Plain_preEvents (level : Level) : exits (Plain.preEvents level) = [].
Proof. unfold Plain.preEvents. destruct (Plain.isSevere level); reflexivity. Qed.

(** A run of shape [logShape]: at FATAL it ends in [os.Exit(1)], after the
    writes; at any other level it returns and never exits. *)
Lemma logShape_exit (level : Level) (pre : list event)
      (diag : option (string * option string)) (p : string)
      (werr ferr : option string) :
  writes pre = [] -> exits pre = [] ->
  let r := logShape level pre diag p werr ferr in
  (level = FATAL ->
   snd r = Abort (Exit 1) /\
   exists evs, fst r = (evs ++ [EvExit 1])%list /\
               writes evs <> [] /\ exits evs = []) /\
  (level <> FATAL -> snd r = Done tt /\ exits (fst r) = []).
Proof.
  intros Hw He r. subst r.
  assert (Hbody : writes (shapeBody pre diag p werr ferr) <> [] /\
                  exits (shapeBody pre diag p werr ferr) = []).
  { unfold shapeBody. rewrite !writes_app, !exits_app, Hw, He.
    destruct diag as [[d e]|], werr as [e'|]; cbn; split;
      solve [discriminate | reflexivity]. }
  destruct Hbody as [Hbw Hbe]. unfold logShape. split.
  - intros ->. cbn. split; [reflexivity|].
    exists (shapeBody pre diag p werr ferr). auto.
  - intros Hne. apply Z.eqb_neq in Hne. rewrite Hne. cbn [fst snd].
    split; [reflexivity|]. rewrite exits_app, Hbe. reflexivity.
Qed.

(** C2 (amended).  On a logger with a sink, a call of [Fatal] or [Fatalf]
    that passes the filter ends the process with [os.Exit(1)]; the exit is
    the last event, it comes after the write (and after the diagnostic write
    when the sink returned an error), and it happens whatever the sink
    answered.  A call at any other level returns normally and never exits.
    Both renderings. *)
Theorem fatal_exits_with_status_1_after_write :
  (forall (jsonText : json -> string) (m : method) (l : Json.Logger)
          (env : Env) (format : string) (args : list any) (h : list event)
          (wr : Writer),
      Json.w l = Some wr -> ~ Json.minLevel l > methodLevel m ->
      let r := Json.call jsonText m l env format args h in
      (methodLevel m = FATAL ->
       snd r = Abort (Exit 1) /\
       exists evs, fst r = (evs ++ [EvExit 1])%list /\
                   writes evs <> [] /\ exits evs = []) /\
      (methodLevel m <> FATAL -> snd r = Done tt /\ exits (fst r) = [])) /\
  (forall (Sprintf : string -> list any -> string) (m : method)
          (l : Plain.Logger) (env : Env) (format : string) (args : list any)
          (h : list event) (wr : Writer),
      Plain.w l = Some wr -> ~ Plain.minLevel l > methodLevel m ->
      let r := Plain.call Sprintf m l env format args h in
      (methodLevel m = FATAL ->
       snd r = Abort (Exit 1) /\
       exists evs, fst r = (evs ++ [EvExit 1])%list /\
                   writes evs <> [] /\ exits evs = []) /\
      (methodLevel m <> FATAL -> snd r = Done tt /\ exits (fst r) = [])).
Proof.
  split.
  - intros jsonText m l env format args h wr Hw Hf r. subst r.
    rewrite Json_call_logMsg.
    destruct (Json_logMsg_run jsonText l env (methodLevel m)
                (callFormat m format) (callArgs m format args) h wr Hw Hf)
      as (hd & hw & hf & E).
    rewrite E. clear E.
    destruct (Json.marshalEntry _);
      apply logShape_exit;
      auto using writes_Json_preEvents, exits_Json_preEvents.
  - intros Sprintf m l env format args h wr Hw Hf r. subst r.
    rewrite Plain_call_logMsg.
    destruct (Plain_logMsg_run Sprintf l env (methodLevel m)
                (callFormat m format) (callArgs m format args) h wr Hw Hf)
      as (hw & hf & E).
    cbv zeta in E. rewrite E. clear E.
    apply logShape_exit;
      auto using writes_Plain_preEvents, exits_Plain_preEvents.
Qed.

(** [Fatal] on a sink that refuses every write, in both renderings. *)
Lemma fatal_exits_with_status_1_after_write_witness :
  (let r := Json.call Sample.jsonText MFatal
                      (Json.New [Json.WithWriter Sample.broken])
                      Sample.env0 "boom" [] [] in
   snd r = Abort (Exit 1) /\
   exists evs, fst r = (evs ++ [EvExit 1])%list /\
               writes evs <> [] /\ exits evs = []) /\
  (let r := Plain.call Sample.Sprintf MFatal
                       (Plain.New [Plain.WithWriter Sample.broken])
                       Sample.env0 "boom" [] [] in
   snd r = Abort (Exit 1) /\
   exists evs, fst r = (evs ++ [EvExit 1])%list /\
               writes evs <> [] /\ exits evs = []).
Proof.
  split.
  - apply (proj1 fatal_exits_with_status_1_after_write Sample.jsonText MFatal
             (Json.New [Json.WithWriter Sample.broken]) Sample.env0 "boom" []
             [] Sample.broken).
    + reflexivity.
    + intros C; discriminate C.
    + reflexivity.
  - apply (proj2 fatal_exits_with_status_1_after_write Sample.Sprintf MFatal
             (Plain.New [Plain.WithWriter Sample.broken]) Sample.env0 "boom" []
             [] Sample.broken).
    + reflexivity.
    + intros C; discriminate C.
    + reflexivity.
Defined.

(** C2 as stated fails on a logger without a sink, which is what [New]
    returns when no [WithWriter] option is given.  There [Fatal] passes the
    filter and panics at [l.w.Write], in both renderings: [os.Exit(1)] is
    never reached.  And [Debug], which is not at FATAL, does not return
    either: it panics at the same place. *)
Lemma fatal_on_sinkless_logger_panics :
  let rj := Json.call Sample.jsonText MFatal (Json.New []) Sample.env0
                      "boom" [] [] in
  let rp := Plain.call Sample.Sprintf MFatal (Plain.New []) Sample.env0
                       "boom" [] [] in
  let rd := Json.call Sample.jsonText MDebug (Json.New []) Sample.env0
                      "boom" [] [] in
  ~ Json.minLevel (Json.New []) > methodLevel MFatal /\
  snd rj = Abort (Panic nilDeref) /\ snd rj <> Abort (Exit 1) /\
  exits (fst rj) = [] /\
  snd rp = Abort (Panic nilDeref) /\ snd rp <> Abort (Exit 1) /\
  exits (fst rp) = [] /\
  methodLevel MDebug <> FATAL /\ snd rd = Abort (Panic nilDeref).
Proof.
  cbv zeta. repeat split; try reflexivity; intros C; discriminate C.
Qed.

(** Without a sink the write panics before [os.Exit] is reached; the
    deferred unlock runs while the panic unwinds. *)
Example fatal_without_sink_panics :
  Json.call Sample.jsonText MFatal (Json.New []) Sample.env0 "boom" [] [] =
  ([EvLock; EvNow; EvUnlock], Abort (Panic nilDeref)).
Proof. reflexivity. Qed.


(** ** Stack traces *)

Lemma stackOn_iff (l : Json.Logger) (level : Level) :
  Json.stackOn l level = true <->
  (level = ERROR \/ level = FATAL) /\ Json.stacktrace l = true.
Proof.
  unfold Json.stackOn. rewrite andb_true_iff, orb_true_iff, !Z.eqb_eq.
  reflexivity.
Qed.

Lemma Json_stackText_nonempty (level : Level) (st : string) :
  Json.stackText level st <> "".
Proof. discriminate. Qed.

(** C3 (what the structured rendering does).  The entry built by [fmt] has
    a non-empty stack trace exactly when the level is ERROR or FATAL, the
    stacktrace flag is set and the call has at least one variadic argument:
    the capture sits inside the loop over the arguments, so a call without
    arguments never gets a stack trace. *)
Theorem structured_stacktrace_needs_an_argument
        (l : Json.Logger) (env : Env) (level : Level) (format : string)
        (args : list any) (h : list event) :
  exists evs en,
    Json.fmt l env level format args h = (evs, Done en) /\
    (Json.Stacktrace en <> "" <->
     (level = ERROR \/ level = FATAL) /\ Json.stacktrace l = true /\
     args <> []).
Proof.
  rewrite Json_fmt_run. do 2 eexists. split; [reflexivity|].
  unfold Json.fmtEntry. cbn [Json.Stacktrace].
  destruct args as [|a rest].
  - split; [intros C; contradiction C; reflexivity|].
    intros (_ & _ & C). contradiction C. reflexivity.
  - destruct (Json.stackOn l level) eqn:E.
    + apply stackOn_iff in E. destruct E as [E1 E2].
      split; [intros _; repeat split; [assumption .. | discriminate]|].
      intros _. apply Json_stackText_nonempty.
    + split; [intros C; contradiction C; reflexivity|].
      intros (H1 & H2 & _). assert (C : Json.stackOn l level = true)
        by (apply stackOn_iff; auto). congruence.
Qed.

(** The failing input: the stacktrace flag is set and [Errorf("boom")] is
    called without arguments; the record written has no stacktrace member
    and the stack is never captured. *)
Example Errorf_without_arguments_has_no_stacktrace :
  Json.call Sample.jsonText MErrorf
            (Json.New [Json.WithWriter Sample.buffer; Json.WithStacktrace true])
            Sample.env0 "boom" [] [] =
  ([EvLock; EvNow;
    EvWrite (Sample.jsonText
               (JObject [("level", JString "ERROR"); ("msg", JString "boom");
                         ("timestamp", JString (now Sample.env0))])
             ++ newline) None;
    EvUnlock], Done tt).
Proof. reflexivity. Qed.

(** With one argument the same logger does attach the stack trace. *)
Example Error_has_stacktrace :
  Json.call Sample.jsonText MError
            (Json.New [Json.WithWriter Sample.buffer; Json.WithStacktrace true])
            Sample.env0 "boom" [] [] =
  ([EvLock; EvNow; EvStack;
    EvWrite (Sample.jsonText
               (JObject [("level", JString "ERROR"); ("msg", JString "%s");
                         ("fields", JArray [JString "boom"]);
                         ("stacktrace",
                          JString (Json.stackText ERROR (stack Sample.env0)));
                         ("timestamp", JString (now Sample.env0))])
             ++ newline) None;
    EvUnlock], Done tt).
Proof. reflexivity. Qed.

(** The plain-text rendering appends the stack trace outside any loop: the
    line of an ERROR or FATAL emission carries it whatever the arguments,
    and the line of a lower level never does. *)
Lemma Plain_stacktrace_iff_severe (Sprintf : string -> list any -> string)
      (l : Plain.Logger) (env : Env) (level : Level) (format : string)
      (args : list any) (h : list event) :
  exists evs,
    Plain.fmt Sprintf l env level format args h =
    (evs, Done (Plain.linePrefix l env level ++ Sprintf format args
                ++ (if ((level =? ERROR) || (level =? FATAL))%bool
                    then Plain.stackText level (stack env) else "")
                ++ newline)) /\
    (In EvStack evs <-> level = ERROR \/ level = FATAL).
Proof.
  rewrite Plain_fmt_run. eexists. split; [reflexivity|].
  unfold Plain.isSevere.
  destruct ((level =? ERROR) || (level =? FATAL))%bool eqn:E.
  - apply orb_true_iff in E. rewrite !Z.eqb_eq in E.
    split; [intros _; exact E | intros _; right; left; reflexivity].
  - apply orb_false_iff in E. rewrite !Z.eqb_neq in E.
    split; [intros [C|[]]; discriminate C | intros [C|C]; tauto].
Qed.


(** ** Serialization failure *)

(** C4.  Structured rendering, on a logger with a sink: when the arguments
    cannot be serialized, the first payload handed to the sink is the
    diagnostic naming the error and the original template; the only other
    payloads are the bare newline that ends the line and, when that write
    is refused, the write-failure diagnostic.  No encoded record reaches the
    sink, nothing is retried, and the call returns normally (it exits with
    status 1 at FATAL) without reporting anything to its caller. *)
Theorem marshal_failure_writes_diagnostic_and_drops_record
        (jsonText : json -> string) (m : method) (l : Json.Logger)
        (env : Env) (format : string) (args : list any) (h : list event)
        (wr : Writer) (e : string) :
  Json.w l = Some wr -> ~ Json.minLevel l > methodLevel m ->
  jsonOfList (callArgs m format args) = inl e ->
  let r := Json.call jsonText m l env format args h in
  let d := "failed to marshal message " ++ e ++ " original message "
           ++ callFormat m format in
  (writes (fst r) = [d; newline] \/
   exists e', writes (fst r) = [d; newline; writeFailed e']) /\
  snd r = (if methodLevel m =? FATAL then Abort (Exit 1) else Done tt).
Proof.
  intros Hw Hf He r d. subst r d.
  rewrite Json_call_logMsg.
  destruct (Json_logMsg_run jsonText l env (methodLevel m)
              (callFormat m format) (callArgs m format args) h wr Hw Hf)
    as (hd & hw & hf & E).
  rewrite E, marshalEntry_fmtEntry, He. clear E.
  rewrite writes_logShape by apply writes_Json_preEvents.
  split; [|reflexivity].
  destruct (accept wr hw newline) as [e'|]; [right; exists e'|left]; reflexivity.
Qed.

(** [Infof("x", ch)] with a channel [ch], on a sink that accepts. *)
Lemma marshal_failure_writes_diagnostic_and_drops_record_witness :
  let r := Json.call Sample.jsonText MInfof
                     (Json.New [Json.WithWriter Sample.buffer])
                     Sample.env0 "x" [VChan] [] in
  let d := "failed to marshal message json: unsupported type: chan int"
           ++ " original message x" in
  (writes (fst r) = [d; newline] \/
   exists e', writes (fst r) = [d; newline; writeFailed e']) /\
  snd r = Done tt.
Proof.
  apply (marshal_failure_writes_diagnostic_and_drops_record
           Sample.jsonText MInfof (Json.New [Json.WithWriter Sample.buffer])
           Sample.env0 "x" [VChan] [] Sample.buffer
           "json: unsupported type: chan int").
  - reflexivity.
  - intros C; discriminate C.
  - reflexivity.
Defined.

(** ** The written record *)

Lemma jsonOfList_Forall2 (args : list any) :
  forall fs, jsonOfList args = inr fs ->
             Forall2 (fun a j => jsonOfAny a = inr j) args fs.
Proof.
  induction args as [|a rest IH]; intros fs H; cbn in H.
  - injection H as <-. constructor.
  - destruct (jsonOfAny a) as [e|j] eqn:Ea; [discriminate|].
    destruct (jsonOfList rest) as [e|js]; [discriminate|].
    injection H as <-. constructor; auto.
Qed.

(** The record handed to the sink when the arguments serialize. *)
Lemma Json_record_written (jsonText : json -> string) (l : Json.Logger)
      (env : Env) (level : Level) (format : string) (args : list any)
      (h : list event) (wr : Writer) (fs : list json) :
  Json.w l = Some wr -> ~ Json.minLevel l > level ->
  jsonOfList args = inr fs ->
  exists rest,
    writes (fst (Json.logMsg jsonText l env level format args h)) =
    (jsonText (JObject (Json.recordMembers l env level format args fs))
     ++ newline) :: rest.
Proof.
  intros Hw Hf Hfs.
  destruct (Json_logMsg_run jsonText l env level format args h wr Hw Hf)
    as (hd & hw & hf & E).
  rewrite E, marshalEntry_fmtEntry, Hfs. clear E.
  rewrite writes_logShape by apply writes_Json_preEvents.
  eexists. reflexivity.
Qed.

Ltac members_cases l format fs args level :=
  unfold Json.recordMembers, Json.omitempty, Json.stackText;
  destruct (Json.name l =? "")%string;
  destruct (format =? "")%string;
  destruct fs; destruct args; destruct (Json.stackOn l level);
  cbn -[Level_string colorFromLevel colorReset].

(** Which members a record has, and their values. *)
Lemma recordMembers_lookup (l : Json.Logger) (env : Env) (level : Level)
      (format : string) (args : list any) (fs : list json) :
  let ms := Json.recordMembers l env level format args fs in
  lookup "level" ms = Some (JString (Level_string level)) /\
  lookup "timestamp" ms = Some (JString (now env)) /\
  lookup "name" ms =
    (if (Json.name l =? "")%string then None else Some (JString (Json.name l))) /\
  lookup "msg" ms =
    (if (format =? "")%string then None else Some (JString format)) /\
  lookup "fields" ms = match fs with [] => None | _ => Some (JArray fs) end /\
  lookup "caller" ms = None /\
  lookup "stacktrace" ms =
    match args with
    | [] => None
    | _ => if Json.stackOn l level
           then Some (JString (Json.stackText level (stack env))) else None
    end.
Proof.
  members_cases l format fs args level; repeat split; reflexivity.
Qed.

Lemma recordMembers_keys (l : Json.Logger) (env : Env) (level : Level)
      (format : string) (args : list any) (fs : list json) :
  let ms := Json.recordMembers l env level format args fs in
  NoDup (keys ms) /\ (forall k, In k (keys ms) -> In k Json.memberNames).
Proof.
  members_cases l format fs args level;
    (split;
     [repeat constructor; cbn; intuition discriminate
     | unfold Json.memberNames; cbn; intuition auto]).
Qed.


(** C5 (amended).  Structured rendering, on a logger with a sink, for every
    call that passes the filter and whose arguments serialize: the first
    payload handed to the sink is one JSON object followed by a newline.
    Its member names are distinct and among name, level, caller, msg, fields,
    stacktrace, timestamp.  [level] and [timestamp] are always present;
    [name], [msg], [fields] and [stacktrace] are present exactly when their
    value is non-empty; [caller] is never present.  [fields] holds the JSON
    values of the variadic arguments in call order, [msg] the template as
    passed. *)
Theorem structured_record_members
        (jsonText : json -> string) (m : method) (l : Json.Logger)
        (env : Env) (format : string) (args : list any) (h : list event)
        (wr : Writer) (fs : list json) :
  Json.w l = Some wr -> ~ Json.minLevel l > methodLevel m ->
  jsonOfList (callArgs m format args) = inr fs ->
  exists members rest,
    writes (fst (Json.call jsonText m l env format args h)) =
      (jsonText (JObject members) ++ newline) :: rest /\
    NoDup (keys members) /\
    (forall k, In k (keys members) -> In k Json.memberNames) /\
    lookup "level" members = Some (JString (Level_string (methodLevel m))) /\
    lookup "timestamp" members = Some (JString (now env)) /\
    lookup "name" members =
      (if (Json.name l =? "")%string then None
       else Some (JString (Json.name l))) /\
    lookup "msg" members =
      (if (callFormat m format =? "")%string then None
       else Some (JString (callFormat m format))) /\
    lookup "fields" members =
      match fs with [] => None | _ => Some (JArray fs) end /\
    Forall2 (fun a j => jsonOfAny a = inr j) (callArgs m format args) fs /\
    lookup "caller" members = None /\
    (lookup "stacktrace" members <> None ->
     (methodLevel m = ERROR \/ methodLevel m = FATAL) /\
     Json.stacktrace l = true).
Proof.
  intros Hw Hf Hfs. rewrite Json_call_logMsg.
  destruct (Json_record_written jsonText l env (methodLevel m)
              (callFormat m format) (callArgs m format args) h wr fs Hw Hf Hfs)
    as [rest E].
  exists (Json.recordMembers l env (methodLevel m) (callFormat m format)
                             (callArgs m format args) fs), rest.
  split; [exact E|].
  destruct (recordMembers_keys l env (methodLevel m) (callFormat m format)
              (callArgs m format args) fs) as [Hnd Hin].
  destruct (recordMembers_lookup l env (methodLevel m) (callFormat m format)
              (callArgs m format args) fs)
    as (H1 & H2 & H3 & H4 & H5 & H6 & H7).
  repeat (split; [assumption|]).
  split; [apply jsonOfList_Forall2; exact Hfs|].
  split; [assumption|].
  rewrite H7. intros Hst. apply stackOn_iff.
  destruct (callArgs m format args); [contradiction Hst; reflexivity|].
  destruct (Json.stackOn l (methodLevel m)); [reflexivity|].
  contradiction Hst; reflexivity.
Qed.

(** [Infof("%d", 1)] on a named logger at minimum level INFO. *)
Lemma structured_record_members_witness :
  exists members rest,
    writes (fst (Json.call Sample.jsonText MInfof
                   (Json.New [Json.WithLevel "INFO"; Json.WithName "unit_test";
                              Json.WithWriter Sample.buffer])
                   Sample.env0 "%d" [VInt 1] [])) =
      (Sample.jsonText (JObject members) ++ newline) :: rest /\
    lookup "level" members = Some (JString "INFO") /\
    lookup "name" members = Some (JString "unit_test") /\
    lookup "msg" members = Some (JString "%d") /\
    lookup "fields" members = Some (JArray [JNumber 1]).
Proof.
  destruct (structured_record_members Sample.jsonText MInfof
              (Json.New [Json.WithLevel "INFO"; Json.WithName "unit_test";
                         Json.WithWriter Sample.buffer])
              Sample.env0 "%d" [VInt 1] [] Sample.buffer [JNumber 1])
    as (members & rest & E & _ & _ & H1 & _ & H3 & H4 & H5 & _).
  - reflexivity.
  - intros C; discriminate C.
  - reflexivity.
  - exists members, rest. repeat split; assumption.
Defined.

(** C5 as stated fails: [name] and [msg] carry the omitempty tag too.  A
    logger without a name writes a record without a [name] member, and an
    empty template gives a record without a [msg] member. *)
Lemma structured_record_without_name_or_msg :
  let l := Json.New [Json.WithWriter Sample.buffer] in
  let ts := JString (now Sample.env0) in
  let ms1 := [("level", JString "INFO"); ("msg", JString "hi");
              ("timestamp", ts)] in
  let ms2 := [("level", JString "INFO"); ("fields", JArray [JNumber 1]);
              ("timestamp", ts)] in
  (writes (fst (Json.call Sample.jsonText MInfof l Sample.env0 "hi" [] [])) =
     [Sample.jsonText (JObject ms1) ++ newline] /\
   ~ In "name" (keys ms1)) /\
  (writes (fst (Json.call Sample.jsonText MInfof l Sample.env0 "" [VInt 1] []))
   = [Sample.jsonText (JObject ms2) ++ newline] /\
   ~ In "name" (keys ms2) /\ ~ In "msg" (keys ms2)).
Proof.
  cbv zeta. repeat split; try reflexivity; cbn; intuition discriminate.
Qed.

(** ** The plain methods of the structured rendering *)

(** C9.  Structured rendering, on a logger with a sink: a plain method
    called with [message] builds an entry whose template is the literal
    ["%s"] and whose fields are the one-element list holding [message]; the
    record written has [msg] equal to ["%s"] and [fields] equal to the
    one-element array holding [message] as a JSON string. *)
Theorem plain_method_message_goes_to_fields
        (jsonText : json -> string) (m : method) (l : Json.Logger)
        (env : Env) (message : string) (args : list any) (h : list event)
        (wr : Writer) :
  formatted m = false ->
  Json.w l = Some wr -> ~ Json.minLevel l > methodLevel m ->
  (exists evs en,
      Json.fmt l env (methodLevel m) (callFormat m message)
               (callArgs m message args) h = (evs, Done en) /\
      Json.Message en = "%s" /\ Json.Fields en = [VString message]) /\
  exists members rest,
    writes (fst (Json.call jsonText m l env message args h)) =
      (jsonText (JObject members) ++ newline) :: rest /\
    lookup "msg" members = Some (JString "%s") /\
    lookup "fields" members = Some (JArray [JString message]).
Proof.
  intros Hm Hw Hf. split.
  - rewrite Json_fmt_run. do 2 eexists. split; [reflexivity|].
    unfold callFormat, callArgs. rewrite Hm. split; reflexivity.
  - assert (Hfs : jsonOfList (callArgs m message args) = inr [JString message])
      by (unfold callArgs; rewrite Hm; reflexivity).
    rewrite Json_call_logMsg.
    destruct (Json_record_written jsonText l env (methodLevel m)
                (callFormat m message) (callArgs m message args) h wr _
                Hw Hf Hfs) as [rest E].
    do 2 eexists. split; [exact E|].
    destruct (recordMembers_lookup l env (methodLevel m) (callFormat m message)
                (callArgs m message args) [JString message])
      as (_ & _ & _ & H4 & H5 & _).
    split; [|exact H5].
    rewrite H4. unfold callFormat. rewrite Hm. reflexivity.
Qed.

(** [Info("100%d")] on a sink that accepts. *)
Lemma plain_method_message_goes_to_fields_witness :
  exists members rest,
    writes (fst (Json.call Sample.jsonText MInfo
                   (Json.New [Json.WithWriter Sample.buffer])
                   Sample.env0 "100%d" [] [])) =
      (Sample.jsonText (JObject members) ++ newline) :: rest /\
    lookup "msg" members = Some (JString "%s") /\
    lookup "fields" members = Some (JArray [JString "100%d"]).
Proof.
  apply (plain_method_message_goes_to_fields Sample.jsonText MInfo
           (Json.New [Json.WithWriter Sample.buffer]) Sample.env0 "100%d" []
           [] Sample.buffer).
  - reflexivity.
  - reflexivity.
  - intros C; discriminate C.
Defined.


(** ** The plain-text rendering of messages *)

(** C7.  Plain-text rendering, on a logger with a sink, for every call that
    passes the filter: the line handed to the sink is the prefix (time
    stamp, level tag, name), the message, and the suffix (stack trace for
    ERROR and FATAL, newline).  For a plain method the message is the
    supplied string itself, byte for byte, whatever verbs it contains and
    with no argument substituted; for an f-suffixed method it is
    [Sprintf format args].  The only fact about [fmt.Sprintf] used is that
    the template ["%s"] applied to one string yields that string. *)
Theorem plain_text_message_verbatim
        (Sprintf : string -> list any -> string)
        (Sprintf_s : forall msg : string, Sprintf "%s" [VString msg] = msg)
        (m : method) (l : Plain.Logger) (env : Env) (format : string)
        (args : list any) (h : list event) (wr : Writer) :
  Plain.w l = Some wr -> ~ Plain.minLevel l > methodLevel m ->
  exists rest,
    writes (fst (Plain.call Sprintf m l env format args h)) =
    (Plain.linePrefix l env (methodLevel m)
     ++ (if formatted m then Sprintf format args else format)
     ++ Plain.lineSuffix env (methodLevel m)) :: rest.
Proof.
  intros Hw Hf. rewrite Plain_call_logMsg.
  destruct (Plain_logMsg_run Sprintf l env (methodLevel m)
              (callFormat m format) (callArgs m format args) h wr Hw Hf)
    as (hw & hf & E).
  cbv zeta in E. rewrite E. clear E.
  rewrite writes_logShape by apply writes_Plain_preEvents.
  unfold callFormat, callArgs. destruct (formatted m).
  - eexists. reflexivity.
  - rewrite Sprintf_s. eexists. reflexivity.
Qed.

Lemma append_empty_r (s : string) : s ++ "" = s.
Proof. induction s as [|c s IH]; cbn; [reflexivity | now rewrite IH]. Qed.

Lemma Sample_Sprintf_s (msg : string) : Sample.Sprintf "%s" [VString msg] = msg.
Proof. cbn. apply append_empty_r. Qed.

(** [Warn("100%d done")]: the verb reaches the sink untouched. *)
Lemma plain_text_message_verbatim_witness :
  exists rest,
    writes (fst (Plain.call Sample.Sprintf MWarn
                   (Plain.New [Plain.WithName "unit_test";
                               Plain.WithWriter Sample.buffer])
                   Sample.env0 "100%d done" [] [])) =
    (Plain.linePrefix (Plain.New [Plain.WithName "unit_test";
                                  Plain.WithWriter Sample.buffer])
                      Sample.env0 WARN
     ++ "100%d done" ++ Plain.lineSuffix Sample.env0 WARN) :: rest.
Proof.
  apply (plain_text_message_verbatim Sample.Sprintf Sample_Sprintf_s MWarn
           (Plain.New [Plain.WithName "unit_test";
                       Plain.WithWriter Sample.buffer])
           Sample.env0 "100%d done" [] [] Sample.buffer).
  - reflexivity.
  - intros C; discriminate C.
Defined.

(** The scenarios of the test file, on the reference [Sprintf]. *)
Example Infof_renders_argument :
  writes (fst (Plain.call Sample.Sprintf MInfof
                 (Plain.New [Plain.WithLevel "INFO"; Plain.WithName "unit_test";
                             Plain.WithWriter Sample.buffer])
                 Sample.env0 "%d" [VInt 1] [])) =
  [now Sample.env0 ++ " [" ++ colorGreen ++ "INFO" ++ colorReset
   ++ "] unit_test 1" ++ newline].
Proof. reflexivity. Qed.

Example Debug_below_INFO_is_silent :
  Plain.call Sample.Sprintf MDebug
             (Plain.New [Plain.WithLevel "INFO"; Plain.WithName "unit_test";
                         Plain.WithWriter Sample.buffer])
             Sample.env0 "unformatted" [] [] = ([], Done tt).
Proof. reflexivity. Qed.

(** ** Construction *)

Lemma Json_New_snoc (opts : list Json.LoggerOption) (o : Json.LoggerOption) :
  Json.New (opts ++ [o]) = Json.applyOption o (Json.New opts).
Proof. unfold Json.New. rewrite fold_left_app. reflexivity. Qed.

Lemma Json_lastOf_snoc {A : Type} (sel : Json.LoggerOption -> option A)
      (opts : list Json.LoggerOption) (o : Json.LoggerOption) :
  Json.lastOf sel (opts ++ [o]) =
  match sel o with Some a => Some a | None => Json.lastOf sel opts end.
Proof. unfold Json.lastOf. rewrite rev_app_distr. reflexivity. Qed.

(** Every field of [New opts] is set by the last option of its kind. *)
Lemma Json_New_last_wins (opts : list Json.LoggerOption) :
  Json.w (Json.New opts) = Json.lastOf Json.selWriter opts /\
  Json.name (Json.New opts) =
    match Json.lastOf Json.selName opts with Some n => n | None => "" end /\
  Json.minLevel (Json.New opts) =
    match Json.lastOf Json.selLevel opts with
    | Some s => levelFromString s
    | None => DEBUG
    end /\
  Json.includeCaller (Json.New opts) =
    match Json.lastOf Json.selCaller opts with Some b => b | None => false end /\
  Json.stacktrace (Json.New opts) =
    match Json.lastOf Json.selStacktrace opts with
    | Some b => b
    | None => false
    end.
Proof.
  induction opts as [|o opts IH] using rev_ind.
  - repeat split; reflexivity.
  - destruct IH as (H1 & H2 & H3 & H4 & H5).
    rewrite Json_New_snoc, !Json_lastOf_snoc.
    destruct o; cbn; repeat split; assumption.
Qed.

(** C8.  [New] starts from the zero-valued logger -- no sink, empty name,
    threshold DEBUG, both flags false -- and applies its options from left
    to right; every field of the result is the one set by the last option
    of its kind, or the zero value when there is none. *)
Theorem New_applies_options_in_order_last_wins :
  Json.New [] = Json.mkLogger None DEBUG "" false false /\
  (forall opts o,
      Json.New (opts ++ [o]) = Json.applyOption o (Json.New opts)) /\
  (forall opts,
      Json.w (Json.New opts) = Json.lastOf Json.selWriter opts /\
      Json.name (Json.New opts) =
        match Json.lastOf Json.selName opts with Some n => n | None => "" end /\
      Json.minLevel (Json.New opts) =
        match Json.lastOf Json.selLevel opts with
        | Some s => levelFromString s
        | None => DEBUG
        end /\
      Json.includeCaller (Json.New opts) =
        match Json.lastOf Json.selCaller opts with
        | Some b => b
        | None => false
        end /\
      Json.stacktrace (Json.New opts) =
        match Json.lastOf Json.selStacktrace opts with
        | Some b => b
        | None => false
        end) /\
  (forall pre mid post a b,
      Json.minLevel (Json.New (pre ++ Json.WithLevel a :: mid
                               ++ Json.WithLevel b :: post)) =
      Json.minLevel (Json.New (pre ++ mid ++ Json.WithLevel b :: post))).
Proof.
  split; [reflexivity|]. split; [exact Json_New_snoc|].
  split; [exact Json_New_last_wins|].
  intros pre mid post a b.
  destruct (Json_New_last_wins (pre ++ Json.WithLevel a :: mid
                                ++ Json.WithLevel b :: post))
    as (_ & _ & -> & _).
  destruct (Json_New_last_wins (pre ++ mid ++ Json.WithLevel b :: post))
    as (_ & _ & -> & _).
  unfold Json.lastOf.
  rewrite !rev_app_distr. cbn [rev]. rewrite !rev_app_distr. cbn [rev].
  rewrite <- !app_assoc. cbn [app].
  induction (rev post) as [|o r IH]; cbn.
  - induction (rev mid) as [|o r IH]; cbn.
    + reflexivity.
    + destruct (Json.selLevel o); [reflexivity | exact IH].
  - destruct (Json.selLevel o); [reflexivity | exact IH].
Qed.

Example New_last_level_wins :
  Json.minLevel (Json.New [Json.WithLevel "error"; Json.WithName "a";
                           Json.WithLevel "warn"]) = WARN.
Proof. reflexivity. Qed.


(** ** The threshold of a constructed logger *)

Lemma Json_New_minLevel_range (opts : list Json.LoggerOption) :
  DEBUG <= Json.minLevel (Json.New opts) <= FATAL.
Proof.
  destruct (Json_New_last_wins opts) as (_ & _ & -> & _).
  destruct (Json.lastOf Json.selLevel opts) as [s|].
  - apply levelFromString_range.
  - unfold DEBUG, FATAL. lia.
Qed.

(** C10.  For every option list the threshold of [New opts] lies between
    DEBUG and FATAL, so a FATAL emission is never filtered: [Fatal] and
    [Fatalf] take the lock and format the entry; on a logger with a sink
    they hand it at least one payload and end the process with
    [os.Exit(1)], and they never return normally (without a sink the write
    itself panics). *)
Theorem constructed_threshold_never_filters_fatal
        (jsonText : json -> string) (opts : list Json.LoggerOption)
        (env : Env) (format : string) (args : list any) (h : list event) :
  let l := Json.New opts in
  DEBUG <= Json.minLevel l <= FATAL /\
  forall m, methodLevel m = FATAL ->
    let r := Json.call jsonText m l env format args h in
    ~ Json.minLevel l > methodLevel m /\
    (exists evs, fst r = EvLock :: EvNow :: evs) /\
    (exists x, snd r = Abort x) /\
    (forall wr, Json.w l = Some wr ->
       writes (fst r) <> [] /\ exits (fst r) = [1] /\
       snd r = Abort (Exit 1)).
Proof.
  intros l. pose proof (Json_New_minLevel_range opts) as Hr. fold l in Hr.
  split; [exact Hr|]. intros m Hm r. subst r.
  assert (Hf : ~ Json.minLevel l > methodLevel m) by (rewrite Hm; lia).
  split; [exact Hf|]. rewrite Json_call_logMsg.
  destruct (Json.w l) as [wr|] eqn:Hw.
  - destruct (Json_logMsg_run jsonText l env (methodLevel m)
                (callFormat m format) (callArgs m format args) h wr Hw Hf)
      as (hd & hw & hf & E).
    rewrite E. clear E. rewrite Hm.
    assert (Hshape : forall diag p werr ferr,
      let r := logShape FATAL (Json.preEvents l FATAL (callArgs m format args))
                        diag p werr ferr in
      (exists evs, fst r = EvLock :: EvNow :: evs) /\
      (exists x, snd r = Abort x) /\
      writes (fst r) <> [] /\ exits (fst r) = [1] /\ snd r = Abort (Exit 1)).
    { intros diag p werr ferr r.
      destruct (logShape_exit FATAL
                  (Json.preEvents l FATAL (callArgs m format args))
                  diag p werr ferr (writes_Json_preEvents _ _ _)
                  (exits_Json_preEvents _ _ _)) as [HF _].
      destruct (HF eq_refl) as (Hs & evs & Hfst & Hwr & Hex). fold r in Hs, Hfst.
      split; [|split; [|split; [|split]]].
      - unfold r, logShape, shapeBody, Json.preEvents. cbn [fst].
        eexists. cbn [app]. reflexivity.
      - eexists. exact Hs.
      - rewrite Hfst, writes_app. intros C. apply app_eq_nil in C. tauto.
      - rewrite Hfst, exits_app, Hex. reflexivity.
      - exact Hs. }
    destruct (Json.marshalEntry _);
      match goal with |- context [logShape FATAL ?pre ?d ?p ?we ?fe] =>
        destruct (Hshape d p we fe) as (H1 & H2 & H3 & H4 & H5) end;
      (split; [exact H1|]); (split; [exact H2|]);
      intros wr' _; auto.
  - rewrite (Json_logMsg_no_sink jsonText l env (methodLevel m)
               (callFormat m format) (callArgs m format args) h Hw Hf).
    cbn [fst snd]. split; [eexists; reflexivity|].
    split; [eexists; reflexivity|]. intros wr C. discriminate C.
Qed.

(** [Fatalf] on a logger built with an unknown level string. *)
Lemma constructed_threshold_never_filters_fatal_witness :
  let l := Json.New [Json.WithLevel "trace"; Json.WithWriter Sample.buffer] in
  let r := Json.call Sample.jsonText MFatalf l Sample.env0 "bye" [] [] in
  Json.minLevel l = DEBUG /\
  writes (fst r) <> [] /\ exits (fst r) = [1] /\ snd r = Abort (Exit 1).
Proof.
  cbv zeta. split; [reflexivity|].
  destruct (proj2 (constructed_threshold_never_filters_fatal Sample.jsonText
                     [Json.WithLevel "trace"; Json.WithWriter Sample.buffer]
                     Sample.env0 "bye" [] []) MFatalf eq_refl)
    as (_ & _ & _ & H).
  apply (H Sample.buffer). reflexivity.
Defined.


(** * Further properties of the code *)

(** ** Level names and colours *)

Lemma level_in_range_cases (lvl : Level) :
  DEBUG <= lvl <= FATAL ->
  lvl = DEBUG \/ lvl = INFO \/ lvl = WARN \/ lvl = ERROR \/ lvl = FATAL.
Proof. unfold DEBUG, INFO, WARN, ERROR, FATAL. lia. Qed.

(** X1.  Reading back the name [string()] gives a level returns that
    level, for each of the five constants; a [Level] outside the
    enumeration is named "DEBUG" and so reads back as DEBUG.  In
    particular the five names are pairwise different. *)
Theorem level_name_round_trip (lvl : Level) :
  levelFromString (Level_string lvl) =
    (if ((DEBUG <=? lvl) && (lvl <=? FATAL))%bool then lvl else DEBUG) /\
  (forall other : Level,
      DEBUG <= lvl <= FATAL -> DEBUG <= other <= FATAL ->
      Level_string lvl = Level_string other -> lvl = other).
Proof.
  assert (Hrt : forall x : Level,
             levelFromString (Level_string x) =
             (if ((DEBUG <=? x) && (x <=? FATAL))%bool then x else DEBUG)).
  { intros x. unfold Level_string.
    destruct (x =? INFO) eqn:E1; [apply Z.eqb_eq in E1; subst; reflexivity|].
    destruct (x =? WARN) eqn:E2; [apply Z.eqb_eq in E2; subst; reflexivity|].
    destruct (x =? ERROR) eqn:E3; [apply Z.eqb_eq in E3; subst; reflexivity|].
    destruct (x =? FATAL) eqn:E4; [apply Z.eqb_eq in E4; subst; reflexivity|].
    apply Z.eqb_neq in E1, E2, E3, E4.
    change (levelFromString "DEBUG") with DEBUG.
    destruct ((DEBUG <=? x) && (x <=? FATAL))%bool eqn:Er; [|reflexivity].
    apply andb_true_iff in Er. rewrite !Z.leb_le in Er.
    unfold DEBUG, INFO, WARN, ERROR, FATAL in *. lia. }
  split; [apply Hrt|].
  intros other Hl Ho E.
  assert (Hin : forall x, DEBUG <= x <= FATAL ->
                          ((DEBUG <=? x) && (x <=? FATAL))%bool = true).
  { intros x Hx. apply andb_true_iff. rewrite !Z.leb_le. exact Hx. }
  pose proof (Hrt lvl) as H1. pose proof (Hrt other) as H2.
  rewrite (Hin _ Hl) in H1. rewrite (Hin _ Ho) in H2.
  rewrite <- H1, <- H2, E. reflexivity.
Qed.

(** ERROR reads back as ERROR, level 9 as DEBUG, and WARN and ERROR have
    different names. *)
Lemma level_name_round_trip_witness :
  levelFromString (Level_string ERROR) = ERROR /\
  levelFromString (Level_string 9) = DEBUG /\
  Level_string WARN <> Level_string ERROR.
Proof.
  split; [exact (proj1 (level_name_round_trip ERROR))|].
  split; [exact (proj1 (level_name_round_trip 9))|].
  intros H. apply (proj2 (level_name_round_trip WARN) ERROR) in H.
  - discriminate H.
  - unfold DEBUG, WARN, FATAL. lia.
  - unfold DEBUG, ERROR, FATAL. lia.
Defined.

(** X2.  [colorFromLevel] gives the five levels five different colours,
    none of them the reset sequence; every other [Level] gets the reset
    sequence. *)
Theorem colorFromLevel_one_to_one (a : Level) :
  (DEBUG <= a <= FATAL ->
   colorFromLevel a <> colorReset /\
   forall b : Level, DEBUG <= b <= FATAL ->
                     colorFromLevel a = colorFromLevel b -> a = b) /\
  (~ DEBUG <= a <= FATAL -> colorFromLevel a = colorReset).
Proof.
  split.
  - intros Ha. apply level_in_range_cases in Ha.
    split.
    + destruct Ha as [-> | [-> | [-> | [-> | ->]]]]; discriminate.
    + intros b Hb E. apply level_in_range_cases in Hb.
      destruct Ha as [-> | [-> | [-> | [-> | ->]]]];
        destruct Hb as [-> | [-> | [-> | [-> | ->]]]];
        solve [reflexivity | vm_compute in E; discriminate E].
  - intros Ha. unfold colorFromLevel.
    destruct (a =? DEBUG) eqn:E0; [apply Z.eqb_eq in E0|];
    [exfalso; apply Ha; subst; unfold DEBUG, FATAL; lia|].
    destruct (a =? INFO) eqn:E1; [apply Z.eqb_eq in E1|];
    [exfalso; apply Ha; subst; unfold DEBUG, INFO, FATAL; lia|].
    destruct (a =? WARN) eqn:E2; [apply Z.eqb_eq in E2|];
    [exfalso; apply Ha; subst; unfold DEBUG, WARN, FATAL; lia|].
    destruct (a =? ERROR) eqn:E3; [apply Z.eqb_eq in E3|];
    [exfalso; apply Ha; subst; unfold DEBUG, ERROR, FATAL; lia|].
    destruct (a =? FATAL) eqn:E4; [apply Z.eqb_eq in E4|];
    [exfalso; apply Ha; subst; unfold DEBUG, FATAL; lia|].
    reflexivity.
Qed.

(** The colour of ERROR is not the reset sequence; level 7 gets it. *)
Lemma colorFromLevel_one_to_one_witness :
  colorFromLevel ERROR <> colorReset /\ colorFromLevel 7 = colorReset.
Proof.
  split.
  - apply (proj1 (colorFromLevel_one_to_one ERROR)).
    unfold DEBUG, ERROR, FATAL. lia.
  - apply (proj2 (colorFromLevel_one_to_one 7)).
    unfold DEBUG, FATAL. lia.
Defined.


(** ** Construction and threshold in the plain-text file *)

Lemma Plain_New_snoc (opts : list Plain.LoggerOption) (o : Plain.LoggerOption) :
  Plain.New (opts ++ [o]) = Plain.applyOption o (Plain.New opts).
Proof. unfold Plain.New. rewrite fold_left_app. reflexivity. Qed.

Lemma Plain_lastOf_snoc {A : Type} (sel : Plain.LoggerOption -> option A)
      (opts : list Plain.LoggerOption) (o : Plain.LoggerOption) :
  Plain.lastOf sel (opts ++ [o]) =
  match sel o with Some a => Some a | None => Plain.lastOf sel opts end.
Proof. unfold Plain.lastOf. rewrite rev_app_distr. reflexivity. Qed.

Lemma Plain_New_last_wins (opts : list Plain.LoggerOption) :
  Plain.w (Plain.New opts) = Plain.lastOf Plain.selWriter opts /\
  Plain.name (Plain.New opts) =
    match Plain.lastOf Plain.selName opts with Some n => n | None => "" end /\
  Plain.minLevel (Plain.New opts) =
    match Plain.lastOf Plain.selLevel opts with
    | Some s => levelFromString s
    | None => DEBUG
    end.
Proof.
  induction opts as [|o opts IH] using rev_ind.
  - repeat split; reflexivity.
  - destruct IH as (H1 & H2 & H3).
    rewrite Plain_New_snoc, !Plain_lastOf_snoc.
    destruct o; cbn; repeat split; assumption.
Qed.

(** X3.  The plain-text file's [New]: with no options it returns the
    logger with no sink, empty name and threshold DEBUG; options are applied
    from left to right, so each field is the one set by the last option of
    its kind; and whatever the options, the threshold lies between DEBUG and
    FATAL. *)
Theorem Plain_New_last_option_wins (opts : list Plain.LoggerOption) :
  Plain.New [] = Plain.mkLogger None DEBUG "" /\
  (forall o, Plain.New (opts ++ [o]) = Plain.applyOption o (Plain.New opts)) /\
  Plain.w (Plain.New opts) = Plain.lastOf Plain.selWriter opts /\
  Plain.name (Plain.New opts) =
    match Plain.lastOf Plain.selName opts with Some n => n | None => "" end /\
  Plain.minLevel (Plain.New opts) =
    match Plain.lastOf Plain.selLevel opts with
    | Some s => levelFromString s
    | None => DEBUG
    end /\
  DEBUG <= Plain.minLevel (Plain.New opts) <= FATAL.
Proof.
  destruct (Plain_New_last_wins opts) as (H1 & H2 & H3).
  split; [reflexivity|]. split; [intros o; apply Plain_New_snoc|].
  repeat (split; [assumption|]).
  rewrite H3. destruct (Plain.lastOf Plain.selLevel opts).
  - apply levelFromString_range.
  - unfold DEBUG, FATAL. lia.
Qed.

Example Plain_New_last_name_wins :
  Plain.name (Plain.New [Plain.WithName "a"; Plain.WithLevel "warn";
                         Plain.WithName "b"]) = "b".
Proof. reflexivity. Qed.

(** ** The threshold given by name *)

Lemma Json_events_nil_iff (jsonText : json -> string) (l : Json.Logger)
      (env : Env) (level : Level) (format : string) (args : list any)
      (h : list event) :
  fst (Json.logMsg jsonText l env level format args h) = [] <->
  Json.minLevel l > level.
Proof.
  destruct (Z_gt_dec (Json.minLevel l) level) as [Hgt|Hle].
  - rewrite (Json_logMsg_filtered jsonText l env level format args h Hgt).
    split; auto.
  - split; [|intros; contradiction]. intros E. exfalso.
    destruct (Json.w l) as [wr|] eqn:Hw.
    + destruct (Json_logMsg_run jsonText l env level format args h wr Hw Hle)
        as (hd & hw & hf & E'). rewrite E' in E.
      destruct (Json.marshalEntry _); discriminate E.
    + rewrite (Json_logMsg_no_sink jsonText l env level format args h Hw Hle)
        in E. discriminate E.
Qed.

Lemma Plain_events_nil_iff (Sprintf : string -> list any -> string)
      (l : Plain.Logger) (env : Env) (level : Level) (format : string)
      (args : list any) (h : list event) :
  fst (Plain.logMsg Sprintf l env level format args h) = [] <->
  Plain.minLevel l > level.
Proof.
  destruct (Z_gt_dec (Plain.minLevel l) level) as [Hgt|Hle].
  - rewrite (Plain_logMsg_filtered Sprintf l env level format args h Hgt).
    split; auto.
  - split; [|intros; contradiction]. intros E. exfalso.
    destruct (Plain.w l) as [wr|] eqn:Hw.
    + destruct (Plain_logMsg_run Sprintf l env level format args h wr Hw Hle)
        as (hw & hf & E'). cbv zeta in E'. rewrite E' in E. discriminate E.
    + rewrite (Plain_logMsg_no_sink Sprintf l env level format args h Hw Hle)
        in E. discriminate E.
Qed.

(** X4.  What a level name given to [WithLevel] means for emission, in
    both renderings: when [s] is the last level name among the options, a
    call of method [m] is suppressed exactly when the level of [m] is below
    [levelFromString s]; with no [WithLevel] option nothing is suppressed.
    So a name that is none of info, warn, error, fatal suppresses nothing. *)
Theorem threshold_from_level_name :
  (forall (jsonText : json -> string) (opts : list Json.LoggerOption)
          (m : method) (env : Env) (format : string) (args : list any)
          (h : list event),
      let r := Json.call jsonText m (Json.New opts) env format args h in
      match Json.lastOf Json.selLevel opts with
      | Some s => fst r = [] <-> methodLevel m < levelFromString s
      | None => fst r <> []
      end) /\
  (forall (Sprintf : string -> list any -> string)
          (opts : list Plain.LoggerOption) (m : method) (env : Env)
          (format : string) (args : list any) (h : list event),
      let r := Plain.call Sprintf m (Plain.New opts) env format args h in
      match Plain.lastOf Plain.selLevel opts with
      | Some s => fst r = [] <-> methodLevel m < levelFromString s
      | None => fst r <> []
      end).
Proof.
  split.
  - intros jsonText opts m env format args h r. subst r.
    rewrite Json_call_logMsg.
    pose proof (Json_events_nil_iff jsonText (Json.New opts) env (methodLevel m)
                  (callFormat m format) (callArgs m format args) h) as Hnil.
    destruct (Json_New_last_wins opts) as (_ & _ & Hmin & _).
    rewrite Hmin in Hnil.
    destruct (Json.lastOf Json.selLevel opts) as [s|].
    + rewrite Hnil. split; lia.
    + intros C. apply Hnil in C. destruct m; discriminate C.
  - intros Sprintf opts m env format args h r. subst r.
    rewrite Plain_call_logMsg.
    pose proof (Plain_events_nil_iff Sprintf (Plain.New opts) env (methodLevel m)
                  (callFormat m format) (callArgs m format args) h) as Hnil.
    destruct (Plain_New_last_wins opts) as (_ & _ & Hmin).
    rewrite Hmin in Hnil.
    destruct (Plain.lastOf Plain.selLevel opts) as [s|].
    + rewrite Hnil. split; lia.
    + intros C. apply Hnil in C. destruct m; discriminate C.
Qed.

(** A logger told the level "trace" lets [Debug] through; told "Error" it
    suppresses [Warnf]. *)
Example level_name_scenarios :
  fst (Plain.call Sample.Sprintf MDebug
         (Plain.New [Plain.WithLevel "trace"; Plain.WithWriter Sample.buffer])
         Sample.env0 "x" [] []) <> [] /\
  fst (Json.call Sample.jsonText MWarnf
         (Json.New [Json.WithLevel "Error"; Json.WithWriter Sample.buffer])
         Sample.env0 "x" [] []) = [].
Proof. split; [discriminate | reflexivity]. Qed.


(** ** The lock *)

Lemma forallb_isInner_repeat_stack (n : nat) :
  forallb isInner (repeat EvStack n) = true.
Proof. induction n; [reflexivity | exact IHn]. Qed.

Lemma logShape_discipline (level : Level) (pre : list event)
      (diag : option (string * option string)) (p : string)
      (werr ferr : option string) :
  forallb isInner pre = true ->
  let r := logShape level (EvLock :: pre) diag p werr ferr in
  exists body,
    forallb isInner body = true /\
    ((fst r = EvLock :: (body ++ [EvUnlock])%list /\ snd r = Done tt /\
      level <> FATAL) \/
     (fst r = EvLock :: (body ++ [EvExit 1])%list /\ snd r = Abort (Exit 1) /\
      level = FATAL)).
Proof.
  intros Hpre r. subst r.
  exists (pre ++ match diag with Some (d, e) => [EvWrite d e] | None => [] end
              ++ EvWrite p werr
              :: match werr with
                 | Some e => [EvWrite (writeFailed e) ferr]
                 | None => []
                 end)%list.
  split.
  - rewrite forallb_app, Hpre.
    destruct diag as [[d e]|], werr as [e'|]; reflexivity.
  - unfold logShape, shapeBody. destruct (level =? FATAL) eqn:E.
    + right. apply Z.eqb_eq in E. repeat split; auto.
    + left. apply Z.eqb_neq in E. repeat split; auto.
Qed.

(** X5.  The locking discipline of [logMsg], in both renderings.  A call
    that is filtered touches nothing.  Any other call takes the lock first,
    and everything it does -- clock, stack, writes -- happens while the lock
    is held.  The lock is released as the last event when the call returns
    and when the write panics for want of a sink; when the call is at FATAL
    and reaches [os.Exit(1)], the process exits with the lock still held. *)
Theorem lock_held_around_every_write :
  (forall (jsonText : json -> string) (m : method) (l : Json.Logger)
          (env : Env) (format : string) (args : list any) (h : list event),
      let r := Json.call jsonText m l env format args h in
      (r = ([], Done tt) /\ Json.minLevel l > methodLevel m) \/
      exists body,
        forallb isInner body = true /\
        ((fst r = EvLock :: (body ++ [EvUnlock])%list /\
          (snd r = Done tt \/ snd r = Abort (Panic nilDeref))) \/
         (fst r = EvLock :: (body ++ [EvExit 1])%list /\
          snd r = Abort (Exit 1) /\ methodLevel m = FATAL))) /\
  (forall (Sprintf : string -> list any -> string) (m : method)
          (l : Plain.Logger) (env : Env) (format : string) (args : list any)
          (h : list event),
      let r := Plain.call Sprintf m l env format args h in
      (r = ([], Done tt) /\ Plain.minLevel l > methodLevel m) \/
      exists body,
        forallb isInner body = true /\
        ((fst r = EvLock :: (body ++ [EvUnlock])%list /\
          (snd r = Done tt \/ snd r = Abort (Panic nilDeref))) \/
         (fst r = EvLock :: (body ++ [EvExit 1])%list /\
          snd r = Abort (Exit 1) /\ methodLevel m = FATAL))).
Proof.
  split.
  - intros jsonText m l env format args h r. subst r.
    rewrite Json_call_logMsg.
    set (level := methodLevel m). set (f := callFormat m format).
    set (a := callArgs m format args).
    destruct (Z_gt_dec (Json.minLevel l) level) as [Hgt|Hle].
    { left. split; [apply Json_logMsg_filtered; exact Hgt | exact Hgt]. }
    right.
    assert (Hpre : forallb isInner
                     (EvNow :: (if Json.stackOn l level
                                then repeat EvStack (List.length a) else []))
                   = true).
    { cbn. destruct (Json.stackOn l level);
        [apply forallb_isInner_repeat_stack | reflexivity]. }
    destruct (Json.w l) as [wr|] eqn:Hw.
    + destruct (Json_logMsg_run jsonText l env level f a h wr Hw Hle)
        as (hd & hw & hf & E). rewrite E. clear E.
      unfold Json.preEvents.
      destruct (Json.marshalEntry _);
        match goal with |- context [logShape level (EvLock :: ?pre) ?d ?p ?we ?fe] =>
          destruct (logShape_discipline level pre d p we fe Hpre)
            as (body & Hb & [(H1 & H2 & H3) | (H1 & H2 & H3)]) end;
        exists body; (split; [exact Hb|]); tauto.
    + rewrite (Json_logMsg_no_sink jsonText l env level f a h Hw Hle).
      unfold Json.preEvents. eexists. split; [exact Hpre|].
      left. split; [reflexivity | right; reflexivity].
  - intros Sprintf m l env format args h r. subst r.
    rewrite Plain_call_logMsg.
    set (level := methodLevel m). set (f := callFormat m format).
    set (a := callArgs m format args).
    destruct (Z_gt_dec (Plain.minLevel l) level) as [Hgt|Hle].
    { left. split; [apply Plain_logMsg_filtered; exact Hgt | exact Hgt]. }
    right.
    assert (Hpre : forallb isInner
                     (EvNow :: (if Plain.isSevere level then [EvStack] else []))
                   = true).
    { destruct (Plain.isSevere level); reflexivity. }
    destruct (Plain.w l) as [wr|] eqn:Hw.
    + destruct (Plain_logMsg_run Sprintf l env level f a h wr Hw Hle)
        as (hw & hf & E). cbv zeta in E. rewrite E. clear E.
      unfold Plain.preEvents.
      match goal with |- context [logShape level (EvLock :: ?pre) ?d ?p ?we ?fe] =>
        destruct (logShape_discipline level pre d p we fe Hpre)
          as (body & Hb & [(H1 & H2 & H3) | (H1 & H2 & H3)]) end;
        exists body; (split; [exact Hb|]); tauto.
    + rewrite (Plain_logMsg_no_sink Sprintf l env level f a h Hw Hle).
      unfold Plain.preEvents. eexists. split; [exact Hpre|].
      left. split; [reflexivity | right; reflexivity].
Qed.

(** [Fatal] leaves the lock held; [Error] on a sink-less logger releases
    it while panicking. *)
Example lock_scenarios :
  fst (Plain.call Sample.Sprintf MFatal
         (Plain.New [Plain.WithWriter Sample.buffer]) Sample.env0 "x" [] []) =
    [EvLock; EvNow; EvStack;
     EvWrite (now Sample.env0 ++ " [" ++ colorPurple ++ "FATAL" ++ colorReset
              ++ "]  x" ++ Plain.stackText FATAL (stack Sample.env0)
              ++ newline) None;
     EvExit 1] /\
  Plain.call Sample.Sprintf MError (Plain.New []) Sample.env0 "x" [] [] =
    ([EvLock; EvNow; EvStack; EvUnlock], Abort (Panic nilDeref)).
Proof. split; reflexivity. Qed.


(** ** A refused write *)

Lemma In_logShape_write (level : Level) (pre : list event)
      (diag : option (string * option string)) (p : string)
      (werr ferr : option string) :
  In (EvWrite p werr) (fst (logShape level pre diag p werr ferr)).
Proof.
  unfold logShape, shapeBody. cbn [fst].
  apply in_or_app. left. apply in_or_app. right.
  apply in_or_app. right. left. reflexivity.
Qed.

(** X6.  What [logMsg] does when the sink refuses the record, in both
    renderings (structured: for arguments that serialize).  The record is
    handed to the sink once; if the sink answers with an error [e], exactly
    one more payload follows, the text "failed to write to out: " followed
    by [e]; whatever the sink answers to that one, nothing further is
    written.  If the sink accepts the record, it is the only payload. *)
Theorem refused_write_gets_one_diagnostic :
  (forall (jsonText : json -> string) (m : method) (l : Json.Logger)
          (env : Env) (format : string) (args : list any) (h : list event)
          (wr : Writer) (fs : list json),
      Json.w l = Some wr -> ~ Json.minLevel l > methodLevel m ->
      jsonOfList (callArgs m format args) = inr fs ->
      let r := Json.call jsonText m l env format args h in
      let record :=
        jsonText (JObject (Json.recordMembers l env (methodLevel m)
                             (callFormat m format) (callArgs m format args) fs))
        ++ newline in
      exists werr,
        In (EvWrite record werr) (fst r) /\
        writes (fst r) =
        record :: match werr with
                  | Some e => ["failed to write to out: " ++ e]
                  | None => []
                  end) /\
  (forall (Sprintf : string -> list any -> string) (m : method)
          (l : Plain.Logger) (env : Env) (format : string) (args : list any)
          (h : list event) (wr : Writer),
      Plain.w l = Some wr -> ~ Plain.minLevel l > methodLevel m ->
      let r := Plain.call Sprintf m l env format args h in
      let line :=
        Plain.linePrefix l env (methodLevel m)
        ++ Sprintf (callFormat m format) (callArgs m format args)
        ++ Plain.lineSuffix env (methodLevel m) in
      exists werr,
        In (EvWrite line werr) (fst r) /\
        writes (fst r) =
        line :: match werr with
                | Some e => ["failed to write to out: " ++ e]
                | None => []
                end).
Proof.
  split.
  - intros jsonText m l env format args h wr fs Hw Hf Hfs r record.
    subst r record. rewrite Json_call_logMsg.
    destruct (Json_logMsg_run jsonText l env (methodLevel m)
                (callFormat m format) (callArgs m format args) h wr Hw Hf)
      as (hd & hw & hf & E).
    rewrite E, marshalEntry_fmtEntry, Hfs. clear E.
    eexists. split; [apply In_logShape_write|].
    rewrite writes_logShape by apply writes_Json_preEvents. reflexivity.
  - intros Sprintf m l env format args h wr Hw Hf r line. subst r line.
    rewrite Plain_call_logMsg.
    destruct (Plain_logMsg_run Sprintf l env (methodLevel m)
                (callFormat m format) (callArgs m format args) h wr Hw Hf)
      as (hw & hf & E).
    cbv zeta in E. rewrite E. clear E.
    eexists. split; [apply In_logShape_write|].
    rewrite writes_logShape by apply writes_Plain_preEvents. reflexivity.
Qed.

(** [Warn("x")] on a sink that refuses every write. *)
Lemma refused_write_gets_one_diagnostic_witness :
  let l := Plain.New [Plain.WithName "svc"; Plain.WithWriter Sample.broken] in
  let r := Plain.call Sample.Sprintf MWarn l Sample.env0 "x" [] [] in
  let line := Plain.linePrefix l Sample.env0 WARN
              ++ Sample.Sprintf "%s" [VString "x"]
              ++ Plain.lineSuffix Sample.env0 WARN in
  exists werr,
    In (EvWrite line werr) (fst r) /\
    writes (fst r) =
    line :: match werr with
            | Some e => ["failed to write to out: " ++ e]
            | None => []
            end.
Proof.
  apply (proj2 refused_write_gets_one_diagnostic Sample.Sprintf MWarn
           (Plain.New [Plain.WithName "svc"; Plain.WithWriter Sample.broken])
           Sample.env0 "x" [] [] Sample.broken).
  - reflexivity.
  - intros C; discriminate C.
Defined.

Example refused_write_scenario :
  writes (fst (Plain.call Sample.Sprintf MWarn
                 (Plain.New [Plain.WithName "svc";
                             Plain.WithWriter Sample.broken])
                 Sample.env0 "x" [] [])) =
  [now Sample.env0 ++ " [" ++ colorYellow ++ "WARN" ++ colorReset ++ "] svc x"
   ++ newline;
   "failed to write to out: short write"].
Proof. reflexivity. Qed.

(** ** The caller flag *)

Lemma sameButCaller_logMsg (jsonText : json -> string) (l1 l2 : Json.Logger)
      (env : Env) (level : Level) (format : string) (args : list any)
      (h : list event) :
  sameButCaller l1 l2 ->
  Json.logMsg jsonText l1 env level format args h =
  Json.logMsg jsonText l2 env level format args h.
Proof.
  destruct l1 as [w1 m1 n1 c1 s1], l2 as [w2 m2 n2 c2 s2].
  unfold sameButCaller. cbn. intros (-> & -> & -> & ->).
  unfold Json.logMsg. cbn [Json.minLevel Json.w].
  destruct (m2 >? level); [reflexivity|].
  unfold bind, defer, emit. rewrite !Json_fmt_run. reflexivity.
Qed.

Lemma sameButCaller_applyOption (o : Json.LoggerOption) (l1 l2 : Json.Logger) :
  sameButCaller l1 l2 ->
  sameButCaller (Json.applyOption o l1) (Json.applyOption o l2).
Proof.
  unfold sameButCaller. intros (H1 & H2 & H3 & H4).
  destruct o; cbn; repeat split; assumption.
Qed.

Lemma sameButCaller_fold (post : list Json.LoggerOption) :
  forall l1 l2,
    sameButCaller l1 l2 ->
    sameButCaller (fold_left (fun l opt => Json.applyOption opt l) post l1)
                  (fold_left (fun l opt => Json.applyOption opt l) post l2).
Proof.
  induction post as [|o post IH]; intros l1 l2 H; [exact H|].
  cbn. apply IH, sameButCaller_applyOption, H.
Qed.

(** X7.  [WithCaller] is accepted and stored but nothing reads the flag:
    adding [WithCaller(b)] anywhere in the option list changes no call of
    any method -- same events, same payloads, same outcome. *)
Theorem WithCaller_changes_no_emission
        (jsonText : json -> string) (pre post : list Json.LoggerOption)
        (b : bool) (m : method) (env : Env) (format : string)
        (args : list any) (h : list event) :
  Json.call jsonText m (Json.New (pre ++ Json.WithCaller b :: post))
            env format args h =
  Json.call jsonText m (Json.New (pre ++ post)) env format args h.
Proof.
  rewrite !Json_call_logMsg. apply sameButCaller_logMsg.
  unfold Json.New. rewrite !fold_left_app. cbn [fold_left].
  apply sameButCaller_fold. unfold sameButCaller. cbn. auto.
Qed.

(** ** No state between calls *)

(** X8.  The logger keeps nothing from one call to the next, in both
    renderings: if the answers of the sink do not depend on what happened
    before, a call does exactly the same -- events, payloads, outcome --
    whatever calls came before it. *)
Theorem call_independent_of_history :
  (forall (jsonText : json -> string) (m : method) (l : Json.Logger)
          (env : Env) (format : string) (args : list any),
      (forall wr, Json.w l = Some wr ->
                  forall h1 h2 p, accept wr h1 p = accept wr h2 p) ->
      forall h1 h2,
        Json.call jsonText m l env format args h1 =
        Json.call jsonText m l env format args h2) /\
  (forall (Sprintf : string -> list any -> string) (m : method)
          (l : Plain.Logger) (env : Env) (format : string) (args : list any),
      (forall wr, Plain.w l = Some wr ->
                  forall h1 h2 p, accept wr h1 p = accept wr h2 p) ->
      forall h1 h2,
        Plain.call Sprintf m l env format args h1 =
        Plain.call Sprintf m l env format args h2).
Proof.
  split.
  - intros jsonText m l env format args Hacc h1 h2.
    rewrite !Json_call_logMsg.
    set (level := methodLevel m). set (f := callFormat m format).
    set (a := callArgs m format args).
    destruct (Z_gt_dec (Json.minLevel l) level) as [Hgt|Hle].
    { rewrite !Json_logMsg_filtered by exact Hgt. reflexivity. }
    destruct (Json.w l) as [wr|] eqn:Hw.
    + specialize (Hacc wr eq_refl).
      destruct (Json_logMsg_run jsonText l env level f a h1 wr Hw Hle)
        as (hd1 & hw1 & hf1 & E1).
      destruct (Json_logMsg_run jsonText l env level f a h2 wr Hw Hle)
        as (hd2 & hw2 & hf2 & E2).
      rewrite E1, E2.
      destruct (Json.marshalEntry _);
        rewrite ?(Hacc hd1 hd2), ?(Hacc hw1 hw2), ?(Hacc hf1 hf2); reflexivity.
    + rewrite !Json_logMsg_no_sink by assumption. reflexivity.
  - intros Sprintf m l env format args Hacc h1 h2.
    rewrite !Plain_call_logMsg.
    set (level := methodLevel m). set (f := callFormat m format).
    set (a := callArgs m format args).
    destruct (Z_gt_dec (Plain.minLevel l) level) as [Hgt|Hle].
    { rewrite !Plain_logMsg_filtered by exact Hgt. reflexivity. }
    destruct (Plain.w l) as [wr|] eqn:Hw.
    + specialize (Hacc wr eq_refl).
      destruct (Plain_logMsg_run Sprintf l env level f a h1 wr Hw Hle)
        as (hw1 & hf1 & E1).
      destruct (Plain_logMsg_run Sprintf l env level f a h2 wr Hw Hle)
        as (hw2 & hf2 & E2).
      cbv zeta in E1, E2. rewrite E1, E2.
      rewrite ?(Hacc hw1 hw2), ?(Hacc hf1 hf2). reflexivity.
    + rewrite !Plain_logMsg_no_sink by assumption. reflexivity.
Qed.

(** After any earlier events, [Infof] on an accepting sink does what it
    does on a fresh process. *)
Lemma call_independent_of_history_witness :
  Json.call Sample.jsonText MInfof (Json.New [Json.WithWriter Sample.buffer])
            Sample.env0 "%d" [VInt 1] [EvLock; EvWrite "earlier" None; EvUnlock]
  = Json.call Sample.jsonText MInfof (Json.New [Json.WithWriter Sample.buffer])
              Sample.env0 "%d" [VInt 1] [].
Proof.
  apply (proj1 call_independent_of_history).
  intros wr Hw h1 h2 p. injection Hw as <-. reflexivity.
Defined.


(** ** What [fmt] costs *)

Lemma countEv_repeat_stack (n : nat) : countEv isStack (repeat EvStack n) = n.
Proof.
  unfold countEv. induction n as [|n IH]; [reflexivity|].
  cbn. rewrite IH. reflexivity.
Qed.

Lemma countEv_now_repeat_stack (n : nat) : countEv isNow (repeat EvStack n) = 0%nat.
Proof. unfold countEv. induction n as [|n IH]; [reflexivity | exact IH]. Qed.

(** X9.  The effects of [fmt].  In both renderings it reads the clock
    exactly once and never touches the lock or the sink.  The structured
    [fmt] captures the stack once for every variadic argument when the level
    is ERROR or FATAL and the stacktrace flag is set, and not at all
    otherwise; the plain-text [fmt] captures it exactly once for ERROR and
    FATAL, whatever the arguments, and never for lower levels. *)
Theorem fmt_effects :
  (forall (l : Json.Logger) (env : Env) (level : Level) (format : string)
          (args : list any) (h : list event),
      exists evs en,
        Json.fmt l env level format args h = (evs, Done en) /\
        countEv isNow evs = 1%nat /\
        countEv isStack evs =
          (if Json.stackOn l level then List.length args else 0%nat) /\
        forallb isInner evs = true /\ writes evs = []) /\
  (forall (Sprintf : string -> list any -> string) (l : Plain.Logger)
          (env : Env) (level : Level) (format : string) (args : list any)
          (h : list event),
      exists evs line,
        Plain.fmt Sprintf l env level format args h = (evs, Done line) /\
        countEv isNow evs = 1%nat /\
        countEv isStack evs =
          (if ((level =? ERROR) || (level =? FATAL))%bool then 1%nat else 0%nat) /\
        forallb isInner evs = true /\ writes evs = []).
Proof.
  split.
  - intros l env level format args h. rewrite Json_fmt_run.
    do 2 eexists. split; [reflexivity|].
    destruct (Json.stackOn l level).
    + change (countEv isNow (EvNow :: repeat EvStack (List.length args)))
        with (S (countEv isNow (repeat EvStack (List.length args)))).
      change (countEv isStack (EvNow :: repeat EvStack (List.length args)))
        with (countEv isStack (repeat EvStack (List.length args))).
      rewrite countEv_now_repeat_stack, countEv_repeat_stack.
      repeat split.
      * apply forallb_isInner_repeat_stack.
      * apply writes_repeat_stack.
    + repeat split.
  - intros Sprintf l env level format args h. rewrite Plain_fmt_run.
    do 2 eexists. split; [reflexivity|].
    unfold Plain.isSevere.
    destruct ((level =? ERROR) || (level =? FATAL))%bool; repeat split.
Qed.

Example Errorf_three_arguments_three_stacks :
  countEv isStack
    (fst (Json.fmt (Json.New [Json.WithStacktrace true]) Sample.env0 ERROR
            "%d %d %d" [VInt 1; VInt 2; VInt 3] [])) = 3%nat.
Proof. reflexivity. Qed.

(** ** One record, one line *)

Lemma noNewline_app (a b : string) :
  noNewline (a ++ b) = (noNewline a && noNewline b)%bool.
Proof.
  induction a as [|c a IH]; [reflexivity|].
  cbn. rewrite IH. apply andb_assoc.
Qed.

Lemma noNewline_colorFromLevel (level : Level) :
  noNewline (colorFromLevel level) = true.
Proof.
  unfold colorFromLevel.
  destruct (level =? DEBUG); [reflexivity|].
  destruct (level =? INFO); [reflexivity|].
  destruct (level =? WARN); [reflexivity|].
  destruct (level =? ERROR); [reflexivity|].
  destruct (level =? FATAL); reflexivity.
Qed.

Lemma noNewline_Level_string (level : Level) :
  noNewline (Level_string level) = true.
Proof.
  unfold Level_string.
  destruct (level =? INFO); [reflexivity|].
  destruct (level =? WARN); [reflexivity|].
  destruct (level =? ERROR); [reflexivity|].
  destruct (level =? FATAL); reflexivity.
Qed.

Lemma noNewline_linePrefix (l : Plain.Logger) (env : Env) (level : Level) :
  noNewline (now env) = true -> noNewline (Plain.name l) = true ->
  noNewline (Plain.linePrefix l env level) = true.
Proof.
  intros Hn Hname. unfold Plain.linePrefix.
  rewrite !noNewline_app, Hn, Hname, !noNewline_colorFromLevel,
    noNewline_Level_string.
  destruct (Plain.isStdStream (Plain.w l));
    rewrite ?noNewline_colorFromLevel; reflexivity.
Qed.

(** X10.  The line built by the plain-text [fmt] always ends in a
    newline.  For a level below ERROR, when the time stamp, the logger's name
    and the rendered message contain no newline, that final newline is the
    only one: one record is exactly one line.  For ERROR and FATAL the stack
    trace sits between the message and the final newline. *)
Theorem plain_line_ends_in_newline
        (Sprintf : string -> list any -> string) (l : Plain.Logger)
        (env : Env) (level : Level) (format : string) (args : list any)
        (h : list event) :
  exists evs body,
    Plain.fmt Sprintf l env level format args h = (evs, Done (body ++ newline)) /\
    (level <> ERROR -> level <> FATAL ->
     noNewline (now env) = true -> noNewline (Plain.name l) = true ->
     noNewline (Sprintf format args) = true ->
     noNewline body = true) /\
    (level = ERROR \/ level = FATAL ->
     exists front,
       body = front ++ " " ++ colorFromLevel level ++ "stracktrace "
              ++ colorReset ++ stack env).
Proof.
  rewrite Plain_fmt_run.
  exists (EvNow :: (if Plain.isSevere level then [EvStack] else [])),
         (Plain.linePrefix l env level ++ Sprintf format args
          ++ (if Plain.isSevere level
              then Plain.stackText level (stack env) else "")).
  split; [|split].
  - unfold Plain.lineSuffix. rewrite !append_assoc3. reflexivity.
  - intros H1 H2 Hn Hname Hmsg.
    assert (E : Plain.isSevere level = false).
    { unfold Plain.isSevere. apply orb_false_iff.
      rewrite !Z.eqb_neq. auto. }
    rewrite E, !noNewline_app, Hmsg, noNewline_linePrefix by assumption.
    reflexivity.
  - intros Hs.
    assert (E : Plain.isSevere level = true).
    { unfold Plain.isSevere. apply orb_true_iff.
      rewrite !Z.eqb_eq. exact Hs. }
    rewrite E. exists (Plain.linePrefix l env level ++ Sprintf format args).
    unfold Plain.stackText. rewrite !append_assoc3. reflexivity.
Qed.

(** [Infof("%d", 1)] for a logger named unit_test. *)
Lemma plain_line_ends_in_newline_witness :
  exists evs body,
    Plain.fmt Sample.Sprintf (Plain.New [Plain.WithName "unit_test"])
              Sample.env0 INFO "%d" [VInt 1] [] = (evs, Done (body ++ newline)) /\
    noNewline body = true.
Proof.
  destruct (plain_line_ends_in_newline Sample.Sprintf
              (Plain.New [Plain.WithName "unit_test"]) Sample.env0 INFO "%d"
              [VInt 1] []) as (evs & body & E & H & _).
  exists evs, body. split; [exact E|].
  apply H.
  - intros C; discriminate C.
  - intros C; discriminate C.
  - reflexivity.
  - reflexivity.
  - reflexivity.
Defined.


(** ** The members of an encoded entry *)

Lemma jsonOfList_nil_iff (vs : list any) (fs : list json) :
  jsonOfList vs = inr fs -> (fs = [] <-> vs = []).
Proof.
  destruct vs as [|v rest]; cbn.
  - intros H. injection H as <-. tauto.
  - destruct (jsonOfAny v); [discriminate|].
    destruct (jsonOfList rest); [discriminate|].
    intros H. injection H as <-. split; discriminate.
Qed.

(** X11.  What [json.Marshal] makes of any [entry], by its tags.  Either
    the fields fail to encode, and that error is the result; or the result
    is an object whose member names are exactly those of [memberNames] whose
    field is kept -- in the order of the struct's fields, each once --
    where [level] and [timestamp] are kept even when empty and the other five
    only when non-empty. *)
Theorem entry_members_follow_the_tags (en : Json.entry) :
  match Json.marshalEntry en with
  | inl e => jsonOfList (Json.Fields en) = inl e
  | inr j =>
      exists members,
        j = JObject members /\
        keys members = filter (presentMember en) Json.memberNames /\
        NoDup (keys members) /\
        lookup "level" members = Some (JString (Json.Level' en)) /\
        lookup "timestamp" members = Some (JString (Json.Timestamp en))
  end.
Proof.
  unfold Json.marshalEntry.
  destruct (jsonOfList (Json.Fields en)) as [e|fs] eqn:Efs; [reflexivity|].
  eexists. split; [reflexivity|].
  pose proof (jsonOfList_nil_iff _ _ Efs) as Hnil.
  destruct en as [n lv c msg fields st ts]. cbn in *.
  unfold Json.omitempty, presentMember, Json.memberNames.
  cbn [Json.Name Json.Caller Json.Message Json.Fields Json.Stacktrace
       filter String.eqb Ascii.eqb Bool.eqb andb].
  assert (Hf : (match fs with [] => [] | _ => [("fields", JArray fs)] end) =
               (if match fields with [] => false | _ => true end
                then [("fields", JArray fs)] else [])).
  { destruct fs, fields; try reflexivity.
    - exfalso. assert (C : a :: fields = []) by (apply Hnil; reflexivity).
      discriminate C.
    - exfalso. assert (C : j :: fs = []) by (apply Hnil; reflexivity).
      discriminate C. }
  rewrite Hf. clear Hf Hnil Efs.
  destruct (n =? "")%string, (c =? "")%string, (msg =? "")%string,
    (st =? "")%string, (match fields with [] => false | _ => true end);
    cbn; (split; [reflexivity|]);
    (split; [repeat constructor; cbn; intuition discriminate|]);
    split; reflexivity.
Qed.

Example entry_with_empty_level_keeps_member :
  Json.marshalEntry (Json.mkEntry "" "" "cmd/main.go:10" "" [] "" "") =
  inr (JObject [("level", JString ""); ("caller", JString "cmd/main.go:10");
                ("timestamp", JString "")]).
Proof. reflexivity. Qed.


(** ** Sessions of calls *)

Lemma Plain_call_accepting (Sprintf : string -> list any -> string)
      (l : Plain.Logger) (wr : Writer) (c : Call) (h : list event) :
  Plain.w l = Some wr -> (forall h' p, accept wr h' p = None) ->
  ~ Plain.minLevel l > methodLevel (cMethod c) ->
  methodLevel (cMethod c) <> FATAL ->
  plainEmit Sprintf l c h =
  ((Plain.preEvents (methodLevel (cMethod c))
    ++ [EvWrite (plainLine Sprintf l c) None; EvUnlock])%list, Done tt).
Proof.
  intros Hw Hacc Hf Hfatal. unfold plainEmit. rewrite Plain_call_logMsg.
  destruct (Plain_logMsg_run Sprintf l (cEnv c) (methodLevel (cMethod c))
              (callFormat (cMethod c) (cFormat c))
              (callArgs (cMethod c) (cFormat c) (cArgs c)) h wr Hw Hf)
    as (hw & hf & E).
  cbv zeta in E. rewrite E. clear E. rewrite !Hacc.
  apply Z.eqb_neq in Hfatal.
  unfold logShape, shapeBody, plainLine. rewrite Hfatal.
  cbn [app]. rewrite <- app_assoc. reflexivity.
Qed.

Lemma Json_call_accepting (jsonText : json -> string) (l : Json.Logger)
      (wr : Writer) (c : Call) (h : list event) :
  Json.w l = Some wr -> (forall h' p, accept wr h' p = None) ->
  ~ Json.minLevel l > methodLevel (cMethod c) ->
  methodLevel (cMethod c) <> FATAL -> serializes c ->
  jsonEmit jsonText l c h =
  ((Json.preEvents l (methodLevel (cMethod c))
                   (callArgs (cMethod c) (cFormat c) (cArgs c))
    ++ [EvWrite (jsonLine jsonText l c) None; EvUnlock])%list, Done tt).
Proof.
  intros Hw Hacc Hf Hfatal [fs Hfs]. unfold jsonEmit. rewrite Json_call_logMsg.
  destruct (Json_logMsg_run jsonText l (cEnv c) (methodLevel (cMethod c))
              (callFormat (cMethod c) (cFormat c))
              (callArgs (cMethod c) (cFormat c) (cArgs c)) h wr Hw Hf)
    as (hd & hw & hf & E).
  rewrite E, marshalEntry_fmtEntry, Hfs. clear E. rewrite !Hacc.
  apply Z.eqb_neq in Hfatal.
  unfold logShape, shapeBody, jsonLine. rewrite Hfatal, Hfs.
  cbn [app]. rewrite <- app_assoc. reflexivity.
Qed.

(** A session on a logger: what each call contributes. *)
Lemma runCalls_payloads (emitOne : Call -> M unit) (minLevel : Level)
      (line : Call -> string) (cs : list Call) :
  (forall c h, In c cs -> minLevel > methodLevel (cMethod c) ->
               emitOne c h = ([], Done tt)) ->
  (forall c h, In c cs -> ~ minLevel > methodLevel (cMethod c) ->
               exists evs, emitOne c h = (evs, Done tt) /\
                           writes evs = [line c]) ->
  forall h,
    snd (runCalls emitOne cs h) = Done tt /\
    writes (fst (runCalls emitOne cs h)) = map line (passing minLevel cs).
Proof.
  induction cs as [|c rest IH]; intros Hfilt Hemit h; [split; reflexivity|].
  assert (IH' : forall h', snd (runCalls emitOne rest h') = Done tt /\
                           writes (fst (runCalls emitOne rest h')) =
                           map line (passing minLevel rest)).
  { apply IH; intros c' h' Hin; [apply Hfilt | apply Hemit]; right; exact Hin. }
  cbn [runCalls]. unfold bind, passing. cbn [filter].
  destruct (Z_gt_dec minLevel (methodLevel (cMethod c))) as [Hgt|Hle].
  - rewrite (Hfilt c h (or_introl eq_refl) Hgt).
    apply Z.gtb_gt in Hgt. rewrite Hgt. cbn [negb].
    destruct (IH' (h ++ [])%list) as [H1 H2].
    destruct (runCalls emitOne rest (h ++ [])%list) as [e2 r2].
    cbn in *. auto.
  - destruct (Hemit c h (or_introl eq_refl) Hle) as (evs & E & Hw).
    rewrite E.
    destruct (minLevel >? methodLevel (cMethod c)) eqn:G;
      [apply Z.gtb_gt in G; contradiction|]. cbn [negb map].
    destruct (IH' (h ++ evs)%list) as [H1 H2].
    destruct (runCalls emitOne rest (h ++ evs)%list) as [e2 r2].
    cbn [fst snd] in *. split; [exact H1|].
    rewrite writes_app, Hw, H2. reflexivity.
Qed.

(** X12.  A sequence of calls on one logger whose sink accepts every
    write, none of them at FATAL (structured: all with arguments that
    serialize): the session returns normally and the sink receives exactly
    one payload for each call that passes the filter, in call order -- the
    line, or the record, of that call -- and nothing for the others.  And in
    any session, once a FATAL call on a logger with a sink passes the
    filter, no later call runs. *)
Theorem session_one_payload_per_emitted_call :
  (forall (jsonText : json -> string) (l : Json.Logger) (wr : Writer)
          (cs : list Call) (h : list event),
      Json.w l = Some wr -> (forall h' p, accept wr h' p = None) ->
      Forall (fun c => methodLevel (cMethod c) <> FATAL) cs ->
      Forall serializes cs ->
      snd (runCalls (jsonEmit jsonText l) cs h) = Done tt /\
      writes (fst (runCalls (jsonEmit jsonText l) cs h)) =
      map (jsonLine jsonText l) (passing (Json.minLevel l) cs)) /\
  (forall (Sprintf : string -> list any -> string) (l : Plain.Logger)
          (wr : Writer) (cs : list Call) (h : list event),
      Plain.w l = Some wr -> (forall h' p, accept wr h' p = None) ->
      Forall (fun c => methodLevel (cMethod c) <> FATAL) cs ->
      snd (runCalls (plainEmit Sprintf l) cs h) = Done tt /\
      writes (fst (runCalls (plainEmit Sprintf l) cs h)) =
      map (plainLine Sprintf l) (passing (Plain.minLevel l) cs)) /\
  (forall (jsonText : json -> string) (l : Json.Logger) (wr : Writer)
          (c : Call) (rest : list Call) (h : list event),
      Json.w l = Some wr -> methodLevel (cMethod c) = FATAL ->
      ~ Json.minLevel l > FATAL ->
      runCalls (jsonEmit jsonText l) (c :: rest) h = jsonEmit jsonText l c h) /\
  (forall (Sprintf : string -> list any -> string) (l : Plain.Logger)
          (wr : Writer) (c : Call) (rest : list Call) (h : list event),
      Plain.w l = Some wr -> methodLevel (cMethod c) = FATAL ->
      ~ Plain.minLevel l > FATAL ->
      runCalls (plainEmit Sprintf l) (c :: rest) h = plainEmit Sprintf l c h).
Proof.
  split; [|split; [|split]].
  - intros jsonText l wr cs h Hw Hacc Hnf Hser.
    rewrite Forall_forall in Hnf, Hser.
    apply runCalls_payloads.
    + intros c h' Hin Hgt. unfold jsonEmit. rewrite Json_call_logMsg.
      apply Json_logMsg_filtered. exact Hgt.
    + intros c h' Hin Hle.
      rewrite (Json_call_accepting jsonText l wr c h' Hw Hacc Hle
                 (Hnf c Hin) (Hser c Hin)).
      eexists. split; [reflexivity|].
      rewrite writes_app, writes_Json_preEvents. reflexivity.
  - intros Sprintf l wr cs h Hw Hacc Hnf.
    rewrite Forall_forall in Hnf.
    apply runCalls_payloads.
    + intros c h' Hin Hgt. unfold plainEmit. rewrite Plain_call_logMsg.
      apply Plain_logMsg_filtered. exact Hgt.
    + intros c h' Hin Hle.
      rewrite (Plain_call_accepting Sprintf l wr c h' Hw Hacc Hle (Hnf c Hin)).
      eexists. split; [reflexivity|].
      rewrite writes_app, writes_Plain_preEvents. reflexivity.
  - intros jsonText l wr c rest h Hw Hc Hf.
    cbn [runCalls]. unfold bind, jsonEmit. rewrite Json_call_logMsg, Hc.
    destruct (Json_logMsg_run jsonText l (cEnv c) FATAL
                (callFormat (cMethod c) (cFormat c))
                (callArgs (cMethod c) (cFormat c) (cArgs c)) h wr Hw Hf)
      as (hd & hw & hf & E).
    rewrite E. destruct (Json.marshalEntry _); reflexivity.
  - intros Sprintf l wr c rest h Hw Hc Hf.
    cbn [runCalls]. unfold bind, plainEmit. rewrite Plain_call_logMsg, Hc.
    destruct (Plain_logMsg_run Sprintf l (cEnv c) FATAL
                (callFormat (cMethod c) (cFormat c))
                (callArgs (cMethod c) (cFormat c) (cArgs c)) h wr Hw Hf)
      as (hw & hf & E).
    cbv zeta in E. rewrite E. reflexivity.
Qed.

(** [Info], [Warn], [Warnf] on a logger at WARN: two lines reach the sink. *)
Lemma session_one_payload_per_emitted_call_witness :
  let l := Plain.New [Plain.WithLevel "WARN"; Plain.WithName "unit_test";
                      Plain.WithWriter Sample.buffer] in
  let c1 := mkCall MInfo Sample.env0 "unformatted" [] in
  let c2 := mkCall MWarn Sample.env0 "unformatted" [] in
  let c3 := mkCall MWarnf Sample.env0 "%d" [VInt 1] in
  writes (fst (runCalls (plainEmit Sample.Sprintf l) [c1; c2; c3] [])) =
  [plainLine Sample.Sprintf l c2; plainLine Sample.Sprintf l c3].
Proof.
  cbv zeta.
  apply (proj1 (proj2 session_one_payload_per_emitted_call) Sample.Sprintf
           (Plain.New [Plain.WithLevel "WARN"; Plain.WithName "unit_test";
                       Plain.WithWriter Sample.buffer])
           Sample.buffer).
  - reflexivity.
  - reflexivity.
  - repeat constructor; intros C; discriminate C.
Defined.


(** ** The test file *)

Lemma buffer_not_empty (p : string) (rest : list string) :
  p <> "" -> Nat.eqb (String.length (joined (p :: rest))) 0 = false.
Proof. intros Hp. destruct p; [contradiction Hp; reflexivity | reflexivity]. Qed.

Section TestsPass.

Variable logger :
  string -> Writer -> method -> Env -> string -> list any -> M unit.
Variable clock : nat -> Env.

(** What the tests need of the logger under test. *)
Hypothesis logger_filters :
  forall level m env format args h,
    methodLevel m < levelFromString level ->
    logger level bytes_Buffer m env format args h = ([], Done tt).

Hypothesis logger_emits :
  forall level m env format args h,
    levelFromString level <= methodLevel m -> methodLevel m <> FATAL ->
    (exists fs, jsonOfList (callArgs m format args) = inr fs) ->
    exists evs p,
      logger level bytes_Buffer m env format args h = (evs, Done tt) /\
      writes evs = [p] /\ p <> "".

Ltac emit_step :=
  match goal with
  | |- context [logger ?lv ?wr ?m ?env ?f ?a ?h] =>
      let evs := fresh "evs" in
      let p := fresh "p" in
      let E := fresh "E" in
      let W := fresh "W" in
      let N := fresh "N" in
      destruct (logger_emits lv m env f a h) as (evs & p & E & W & N);
      [ cbv; discriminate
      | intros C; discriminate C
      | eexists; reflexivity
      | rewrite E; cbn [fst snd] ]
  end.

Ltac filter_step :=
  match goal with
  | |- context [logger ?lv ?wr ?m ?env ?f ?a ?h] =>
      rewrite (logger_filters lv m env f a h) by reflexivity
  end.

Ltac buffer_step :=
  unfold buf_Len; cbn [fst snd app];
  rewrite ?writes_app;
  repeat match goal with H : writes _ = _ |- _ => rewrite H end;
  cbn [writes app].

Lemma TestDebug_passes : snd (TestDebug logger clock []) = Done Passed.
Proof.
  unfold TestDebug, bind. emit_step. emit_step. buffer_step.
  rewrite buffer_not_empty by assumption. reflexivity.
Qed.

Lemma TestInfo_passes : snd (TestInfo logger clock []) = Done Passed.
Proof.
  unfold TestInfo, bind. filter_step. unfold buf_Len at 1. cbn.
  emit_step. emit_step. buffer_step.
  rewrite buffer_not_empty by assumption. reflexivity.
Qed.

Lemma TestWarn_passes : snd (TestWarn logger clock []) = Done Passed.
Proof.
  unfold TestWarn, bind. filter_step. unfold buf_Len at 1. cbn.
  emit_step. emit_step. buffer_step.
  rewrite buffer_not_empty by assumption. reflexivity.
Qed.

Lemma TestError_passes : snd (TestError logger clock []) = Done Passed.
Proof.
  unfold TestError, bind. filter_step. unfold buf_Len at 1. cbn.
  emit_step. emit_step. buffer_step.
  rewrite buffer_not_empty by assumption. reflexivity.
Qed.

End TestsPass.

Lemma jsonTestLogger_filters (jsonText : json -> string) (level : string)
      (m : method) (env : Env) (format : string) (args : list any)
      (h : list event) :
  methodLevel m < levelFromString level ->
  jsonTestLogger jsonText level bytes_Buffer m env format args h = ([], Done tt).
Proof.
  intros H. unfold jsonTestLogger. rewrite Json_call_logMsg.
  apply Json_logMsg_filtered.
  change (levelFromString level > methodLevel m). lia.
Qed.

Lemma jsonTestLogger_emits (jsonText : json -> string) (level : string)
      (m : method) (env : Env) (format : string) (args : list any)
      (h : list event) :
  levelFromString level <= methodLevel m -> methodLevel m <> FATAL ->
  (exists fs, jsonOfList (callArgs m format args) = inr fs) ->
  exists evs p,
    jsonTestLogger jsonText level bytes_Buffer m env format args h =
      (evs, Done tt) /\
    writes evs = [p] /\ p <> "".
Proof.
  intros Hle Hnf [fs Hfs]. unfold jsonTestLogger.
  set (l := Json.New [Json.WithLevel level; Json.WithName "unit_test";
                      Json.WithWriter bytes_Buffer]).
  assert (Hf : ~ Json.minLevel l > methodLevel m).
  { change (~ levelFromString level > methodLevel m). lia. }
  pose proof (Json_call_accepting jsonText l bytes_Buffer
                (mkCall m env format args) h eq_refl
                (fun _ _ => eq_refl) Hf Hnf (ex_intro _ fs Hfs)) as E.
  unfold jsonEmit in E. cbn [cMethod cEnv cFormat cArgs] in E.
  do 2 eexists. split; [exact E|]. split.
  - rewrite writes_app, writes_Json_preEvents. reflexivity.
  - unfold jsonLine. cbn [cMethod cEnv cFormat cArgs]. rewrite Hfs.
    apply append_newline_nonempty.
Qed.

Lemma plainTestLogger_filters (Sprintf : string -> list any -> string)
      (level : string) (m : method) (env : Env) (format : string)
      (args : list any) (h : list event) :
  methodLevel m < levelFromString level ->
  plainTestLogger Sprintf level bytes_Buffer m env format args h = ([], Done tt).
Proof.
  intros H. unfold plainTestLogger. rewrite Plain_call_logMsg.
  apply Plain_logMsg_filtered.
  change (levelFromString level > methodLevel m). lia.
Qed.

Lemma plainTestLogger_emits (Sprintf : string -> list any -> string)
      (level : string) (m : method) (env : Env) (format : string)
      (args : list any) (h : list event) :
  levelFromString level <= methodLevel m -> methodLevel m <> FATAL ->
  (exists fs, jsonOfList (callArgs m format args) = inr fs) ->
  exists evs p,
    plainTestLogger Sprintf level bytes_Buffer m env format args h =
      (evs, Done tt) /\
    writes evs = [p] /\ p <> "".
Proof.
  intros Hle Hnf _. unfold plainTestLogger.
  set (l := Plain.New [Plain.WithLevel level; Plain.WithName "unit_test";
                       Plain.WithWriter bytes_Buffer]).
  assert (Hf : ~ Plain.minLevel l > methodLevel m).
  { change (~ levelFromString level > methodLevel m). lia. }
  pose proof (Plain_call_accepting Sprintf l bytes_Buffer
                (mkCall m env format args) h eq_refl
                (fun _ _ => eq_refl) Hf Hnf) as E.
  unfold plainEmit in E. cbn [cMethod cEnv cFormat cArgs] in E.
  do 2 eexists. split; [exact E|]. split.
  - rewrite writes_app, writes_Plain_preEvents. reflexivity.
  - unfold plainLine. apply plain_line_nonempty.
Qed.

(** X13.  The four tests of [log_test.go] -- [TestDebug], [TestInfo],
    [TestWarn], [TestError] -- pass against both renderings, whatever the
    clock and the stack at each call and whatever [fmt.Sprintf] and the JSON
    encoder print: the buffer is still empty after the call below the
    threshold and no longer empty after the two calls at the threshold. *)
Theorem test_file_passes
        (jsonText : json -> string) (Sprintf : string -> list any -> string)
        (clock : nat -> Env) :
  (snd (TestDebug (jsonTestLogger jsonText) clock []) = Done Passed /\
   snd (TestInfo (jsonTestLogger jsonText) clock []) = Done Passed /\
   snd (TestWarn (jsonTestLogger jsonText) clock []) = Done Passed /\
   snd (TestError (jsonTestLogger jsonText) clock []) = Done Passed) /\
  (snd (TestDebug (plainTestLogger Sprintf) clock []) = Done Passed /\
   snd (TestInfo (plainTestLogger Sprintf) clock []) = Done Passed /\
   snd (TestWarn (plainTestLogger Sprintf) clock []) = Done Passed /\
   snd (TestError (plainTestLogger Sprintf) clock []) = Done Passed).
Proof.
  split; repeat split.
  - apply TestDebug_passes. apply jsonTestLogger_emits.
  - apply TestInfo_passes;
      [apply jsonTestLogger_filters | apply jsonTestLogger_emits].
  - apply TestWarn_passes;
      [apply jsonTestLogger_filters | apply jsonTestLogger_emits].
  - apply TestError_passes;
      [apply jsonTestLogger_filters | apply jsonTestLogger_emits].
  - apply TestDebug_passes. apply plainTestLogger_emits.
  - apply TestInfo_passes;
      [apply plainTestLogger_filters | apply plainTestLogger_emits].
  - apply TestWarn_passes;
      [apply plainTestLogger_filters | apply plainTestLogger_emits].
  - apply TestError_passes;
      [apply plainTestLogger_filters | apply plainTestLogger_emits].
Qed.

(** The trace of [TestInfo] on the reference instances. *)
Example TestInfo_trace :
  TestInfo (plainTestLogger Sample.Sprintf) (fun _ => Sample.env0) [] =
  ([EvLock; EvNow;
    EvWrite (now Sample.env0 ++ " [" ++ colorGreen ++ "INFO" ++ colorReset
             ++ "] unit_test unformatted" ++ newline) None;
    EvUnlock;
    EvLock; EvNow;
    EvWrite (now Sample.env0 ++ " [" ++ colorGreen ++ "INFO" ++ colorReset
             ++ "] unit_test 1" ++ newline) None;
    EvUnlock], Done Passed).
Proof. reflexivity. Qed.


(** ** Colour in the plain-text line *)

(** X14.  Colour in the line built by the plain-text [fmt].  The level
    tag is always wrapped in the colour of its level and the reset sequence,
    whatever the sink.  The line itself begins with the time stamp, except
    when the sink is [os.Stdout] or [os.Stdin]: then the colour of the level
    comes first and stays on up to the tag. *)
Theorem plain_level_tag_always_coloured
        (Sprintf : string -> list any -> string) (l : Plain.Logger)
        (env : Env) (level : Level) (format : string) (args : list any)
        (h : list event) :
  exists evs rest,
    Plain.fmt Sprintf l env level format args h =
    (evs,
     Done ((match Plain.w l with
            | Some wr =>
                match ident wr with
                | OsStdout | OsStdin => colorFromLevel level
                | UserWriter _ => ""
                end
            | None => ""
            end)
           ++ now env ++ " [" ++ colorFromLevel level ++ Level_string level
           ++ colorReset ++ "] " ++ Plain.name l ++ " " ++ rest)).
Proof.
  rewrite Plain_fmt_run. do 2 eexists. f_equal. f_equal.
  unfold Plain.linePrefix, Plain.isStdStream.
  destruct (Plain.w l) as [wr|]; [destruct (ident wr)|];
    rewrite !append_assoc3; reflexivity.
Qed.

Example plain_line_on_stdout :
  writes (fst (Plain.call Sample.Sprintf MInfo
                 (Plain.New [Plain.WithWriter
                               (mkWriter OsStdout (fun _ _ => None))])
                 Sample.env0 "x" [] [])) =
  [colorGreen ++ now Sample.env0 ++ " [" ++ colorGreen ++ "INFO" ++ colorReset
   ++ "]  x" ++ newline].
Proof. reflexivity. Qed.

(** ** How options compose *)

(** X15.  Options compose field by field: two options of different kinds
    can be applied in either order with the same result, and of two options
    of the same kind the one applied last alone counts. *)
Theorem options_commute_or_override
        (o1 o2 : Json.LoggerOption) (l : Json.Logger) :
  (optionKind o1 <> optionKind o2 ->
   Json.applyOption o1 (Json.applyOption o2 l) =
   Json.applyOption o2 (Json.applyOption o1 l)) /\
  (optionKind o1 = optionKind o2 ->
   Json.applyOption o1 (Json.applyOption o2 l) = Json.applyOption o1 l).
Proof.
  split; intros H; destruct o1, o2; cbn in H;
    solve [reflexivity | contradiction H; reflexivity | discriminate H].
Qed.

(** Name and level in either order; the later of two names. *)
Lemma options_commute_or_override_witness :
  Json.New [Json.WithName "svc"; Json.WithLevel "warn"] =
  Json.New [Json.WithLevel "warn"; Json.WithName "svc"] /\
  Json.New [Json.WithName "old"; Json.WithName "svc"] =
  Json.New [Json.WithName "svc"].
Proof.
  split.
  - apply (proj1 (options_commute_or_override (Json.WithLevel "warn")
                    (Json.WithName "svc") Json.zeroLogger)).
    intros C; discriminate C.
  - apply (proj2 (options_commute_or_override (Json.WithName "svc")
                    (Json.WithName "old") Json.zeroLogger)).
    reflexivity.
Defined.

(** ** The stack trace that is written *)

(** X16.  Structured rendering, on a logger with a sink and the
    stacktrace flag set: an ERROR or FATAL call that has at least one
    variadic argument (every plain method has one, its message) writes a
    record whose [stacktrace] member is the captured stack behind the marker
    built from a space, the colour of the level, the word "stracktrace", a
    space and the reset sequence. *)
Theorem structured_stacktrace_member
        (jsonText : json -> string) (m : method) (l : Json.Logger)
        (env : Env) (format : string) (args : list any) (h : list event)
        (wr : Writer) (fs : list json) :
  Json.w l = Some wr -> ~ Json.minLevel l > methodLevel m ->
  Json.stacktrace l = true ->
  methodLevel m = ERROR \/ methodLevel m = FATAL ->
  callArgs m format args <> [] ->
  jsonOfList (callArgs m format args) = inr fs ->
  exists members rest,
    writes (fst (Json.call jsonText m l env format args h)) =
      (jsonText (JObject members) ++ newline) :: rest /\
    lookup "stacktrace" members =
      Some (JString (" " ++ colorFromLevel (methodLevel m) ++ "stracktrace "
                     ++ colorReset ++ stack env)).
Proof.
  intros Hw Hf Hst Hlv Hargs Hfs. rewrite Json_call_logMsg.
  destruct (Json_record_written jsonText l env (methodLevel m)
              (callFormat m format) (callArgs m format args) h wr fs Hw Hf Hfs)
    as [rest E].
  do 2 eexists. split; [exact E|].
  destruct (recordMembers_lookup l env (methodLevel m) (callFormat m format)
              (callArgs m format args) fs) as (_ & _ & _ & _ & _ & _ & H7).
  rewrite H7.
  assert (Hon : Json.stackOn l (methodLevel m) = true)
    by (apply stackOn_iff; auto).
  rewrite Hon. destruct (callArgs m format args); [contradiction Hargs|];
    reflexivity.
Qed.

(** [Error("boom")] with the flag set. *)
Lemma structured_stacktrace_member_witness :
  exists members rest,
    writes (fst (Json.call Sample.jsonText MError
                   (Json.New [Json.WithWriter Sample.buffer;
                              Json.WithStacktrace true])
                   Sample.env0 "boom" [] [])) =
      (Sample.jsonText (JObject members) ++ newline) :: rest /\
    lookup "stacktrace" members =
      Some (JString (" " ++ colorFromLevel (methodLevel MError)
                     ++ "stracktrace " ++ colorReset ++ stack Sample.env0)).
Proof.
  apply (structured_stacktrace_member Sample.jsonText MError
           (Json.New [Json.WithWriter Sample.buffer; Json.WithStacktrace true])
           Sample.env0 "boom" [] [] Sample.buffer [JString "boom"]).
  - reflexivity.
  - intros C; discriminate C.
  - reflexivity.
  - left; reflexivity.
  - discriminate.
  - reflexivity.
Defined.
